(** * Portal: the employee (Funcionario) workflow

    A shallow embedding of the three layers of the employee workflow:

    - [FuncionarioMiddleware] (api/middleware/FuncionarioMiddleware.js):
      the shape checks of a create request and of a login request;
    - [FuncionarioDAO] (api/dao/FuncionarioDAO.js): the persistence
      gateway over the [funcionario] and [cargo] tables;
    - [FuncionarioService] (api/service/FuncionarioService.js): the
      business rules of create, login, find, update and delete.

    JavaScript values are untyped and are modelled by [JS.value]: the
    bodies the middleware reads, the properties of the model objects and the
    parameters bound to a statement.  The service is given the types of its
    JSDoc where the JSDoc gives some (the fields of a create request, the
    identifiers); the body of an update and the credentials of a login are
    plain objects there and stay untyped.

    Every promise is awaited where it is made, so the code of one call is
    sequential and is written in a state-and-exception monad over a [World]:
    the two tables, the heap of [Funcionario] objects, the salts drawn so
    far and a log of the statements sent and the hashes computed and
    compared.  The database server always answers: connection failures are
    outside the model.

    A statement goes to the server as the text the source has for it.  The
    texts of [create], [update], [findAll] and [login] are template literals
    over several lines whose indentation is made of U+00A0, which the server
    does not take for white space: it refuses them ([refused], [run]). *)

From stdpp Require Import base list strings.
From Stdlib Require Import ZArith DecimalString DecimalZ Lia.

Set Warnings "-register-all".

Open Scope string_scope.
Open Scope Z_scope.

(** ** Exceptions *)

(** Modelled from the spec: the class [ErrorResponse] of utils, which is not
    among the sources, by the payload the spec gives it:
    [ErrorResponse(statusCode, title, { message })].  Next to it, the plain
    [Error] of the language and the [TypeError] raised by the runtime and by
    the client libraries. *)
Inductive exn :=
| ErrorResponse (statusCode : Z) (title : string) (message : string)
| Error (message : string)
| TypeError (message : string).

Definition statusCode_of (e : exn) : option Z :=
match e with
| ErrorResponse c _ _ => Some c
| _ => None
end.

Definition title_of (e : exn) : option string :=
match e with
| ErrorResponse _ t _ => Some t
| _ => None
end.

Definition message_of (e : exn) : string :=
match e with
| ErrorResponse _ _ m | Error m | TypeError m => m
end.

(** ** JavaScript values of a request body *)

Module JS.

(** A number: an integer, a finite non-integer (no code in scope looks at
    its value), NaN or an infinity. *)
Inductive number :=
| Int (z : Z)
| Frac
| NaN
| Infinity (negative : bool).

Inductive value :=
| undefined
| null
| Bool (b : bool)
| Num (n : number)
| Str (s : string)
| Arr (items : list value)
| Obj (props : list (string * value)).

(** [!!v] *)
Definition truthy (v : value) : bool :=
  match v with
  | undefined | null => false
  | Bool b => b
  | Num (Int z) => negb (z =? 0)
  | Num NaN => false
  | Num _ => true
  | Str s => negb (String.eqb s "")
  | Arr _ | Obj _ => true
  end.

(** [typeof v] *)
Definition typeof (v : value) : string :=
  match v with
  | undefined => "undefined"
  | null | Arr _ | Obj _ => "object"
  | Bool _ => "boolean"
  | Num _ => "number"
  | Str _ => "string"
  end.

Fixpoint own (props : list (string * value)) (key : string) : value :=
  match props with
  | [] => undefined
  | (k, v) :: rest => if String.eqb k key then v else own rest key
  end.

(** [v[key]] for a key that no prototype defines (every key read by the
    code in scope is such a key): reading a property of [undefined] or
    [null] throws, a primitive or an array has no such property. *)
Definition get (v : value) (key : string) : exn + value :=
  match v with
  | undefined =>
      inl (TypeError ("Cannot read properties of undefined (reading '" ++ key ++ "')"))
  | null =>
      inl (TypeError ("Cannot read properties of null (reading '" ++ key ++ "')"))
  | Obj props => inr (own props key)
  | _ => inr undefined
  end.

(** [v === undefined || v === null || v === ""] *)
Definition blank (v : value) : bool :=
  match v with
  | undefined | null => true
  | Str s => String.eqb s ""
  | _ => false
  end.

(** [Number.isInteger(v)] *)
Definition isInteger (v : value) : bool :=
  match v with
  | Num (Int _) => true
  | _ => false
  end.

(** [v <= 0], used on integers only (the guard [Number.isInteger] comes
    first in the one place that compares). *)
Definition le_zero (v : value) : bool :=
  match v with
  | Num (Int z) => z <=? 0
  | _ => false
  end.

(** *** Text: [toString], [trim] and patterns *)

(** [Number.prototype.toString] is the language's own and writes integers
    and fractions in more than one notation: it is a collaborator here. *)
Class NumberText := { Number_prototype_toString : number → string }.

(** [props] has an own property of the name [key]. *)
Definition hasOwn (props : list (string * value)) (key : string) : bool :=
  existsb (λ p, String.eqb (fst p) key) props.

Section Text.
Context `{NumberText}.

(** [funcionario[campo].toString()], the method call of the login check: it
    throws on [undefined] and [null], and on an object that has an own
    property [toString], which in a parsed body is never a function; the
    text of that error names the callee as the source writes it.  An array
    joins the texts of its items with commas, the text of [undefined] and
    [null] being empty there, and an object among the items is converted by
    its [toString]. *)
Fixpoint toString (v : value) : exn + string :=
  match v with
  | undefined =>
      inl (TypeError "Cannot read properties of undefined (reading 'toString')")
  | null =>
      inl (TypeError "Cannot read properties of null (reading 'toString')")
  | Bool b => inr (if b then "true" else "false")
  | Num n => inr (Number_prototype_toString n)
  | Str s => inr s
  | Arr items =>
      (fix join (items : list value) (first : bool) : exn + string :=
         match items with
         | [] => inr ""
         | x :: rest =>
             let item :=
               match x with
               | undefined | null => inr ""
               | Obj props =>
                   if hasOwn props "toString"
                   then inl (TypeError "Cannot convert object to primitive value")
                   else inr "[object Object]"
               | _ => toString x
               end in
             match item with
             | inl e => inl e
             | inr a =>
                 match join rest false with
                 | inl e => inl e
                 | inr b => inr ((if first then "" else ",") ++ a ++ b)
                 end
             end
         end) items true
  | Obj props =>
      if hasOwn props "toString"
      then inl (TypeError "funcionario[campo].toString is not a function")
      else inr "[object Object]"
  end.

(** The conversion of an argument to a string, as [RegExp.prototype.test]
    does it. *)
Definition ToString (v : value) : exn + string :=
  match v with
  | undefined => inr "undefined"
  | null => inr "null"
  | Obj props =>
      if hasOwn props "toString"
      then inl (TypeError "Cannot convert object to primitive value")
      else inr "[object Object]"
  | _ => toString v
  end.

End Text.

(** A string is read as UTF-8.  What the patterns of the code tell apart is
    white space, [@], [.] and the rest. *)
Inductive kind := White | At | Dot | Other.

Definition code (c : Ascii.ascii) : N := Ascii.N_of_ascii c.

(** TAB, LF, VT, FF, CR and the space. *)
Definition white1 (a : N) : bool :=
  ((9 <=? a) && (a <=? 13) || (a =? 32))%N.

(** U+00A0. *)
Definition white2 (a b : N) : bool :=
  ((a =? 0xC2) && (b =? 0xA0))%N.

(** U+1680, U+2000 to U+200A, U+2028, U+2029, U+202F, U+205F, U+3000 and
    U+FEFF. *)
Definition white3 (a b c : N) : bool :=
  ((a =? 0xE1) && (b =? 0x9A) && (c =? 0x80)
   || (a =? 0xE2) && (b =? 0x80)
      && ((0x80 <=? c) && (c <=? 0x8A) || (c =? 0xA8) || (c =? 0xA9) || (c =? 0xAF))
   || (a =? 0xE2) && (b =? 0x81) && (c =? 0x9F)
   || (a =? 0xE3) && (b =? 0x80) && (c =? 0x80)
   || (a =? 0xEF) && (b =? 0xBB) && (c =? 0xBF))%N.

(** The white-space character a string starts with, if it starts with one,
    and what follows it: the characters that [\s] matches and [trim]
    removes. *)
Definition white_head (s : string) : option (string * string) :=
  match s with
  | String c1 r1 =>
      if white1 (code c1) then Some (String c1 "", r1)
      else
        match r1 with
        | String c2 r2 =>
            if white2 (code c1) (code c2) then Some (String c1 (String c2 ""), r2)
            else
              match r2 with
              | String c3 r3 =>
                  if white3 (code c1) (code c2) (code c3)
                  then Some (String c1 (String c2 (String c3 "")), r3)
                  else None
              | EmptyString => None
              end
        | EmptyString => None
        end
  | EmptyString => None
  end.

(** A string cut into units, each with its kind: a white-space character is
    one unit, every other byte is a unit of its own. *)
Fixpoint units_fuel (fuel : nat) (s : string) : list (kind * string) :=
  match fuel with
  | O => []
  | S fuel =>
      match white_head s with
      | Some (chunk, rest) => (White, chunk) :: units_fuel fuel rest
      | None =>
          match s with
          | String c rest =>
              ((if (code c =? 64)%N then At
                else if (code c =? 46)%N then Dot else Other),
               String c "")
              :: units_fuel fuel rest
          | EmptyString => []
          end
      end
  end.

Definition units (s : string) : list (kind * string) :=
  units_fuel (String.length s) s.

Definition is_white (u : kind * string) : bool :=
  match fst u with
  | White => true
  | _ => false
  end.

Fixpoint dropWhile {A : Type} (p : A → bool) (l : list A) : list A :=
  match l with
  | x :: rest => if p x then dropWhile p rest else l
  | [] => []
  end.

(** [s.trim()] *)
Definition trim (s : string) : string :=
  String.concat ""
    (List.map snd
       (List.rev (dropWhile is_white (List.rev (dropWhile is_white (units s)))))).

(** Patterns over kinds, matched by derivatives. *)
Inductive regex :=
| Fail
| Eps
| Sym (p : kind → bool)
| Cat (r1 r2 : regex)
| Alt (r1 r2 : regex)
| Star (r : regex).

(** [r+] *)
Definition Plus (r : regex) : regex := Cat r (Star r).

Fixpoint nullable (r : regex) : bool :=
  match r with
  | Fail | Sym _ => false
  | Eps | Star _ => true
  | Cat r1 r2 => nullable r1 && nullable r2
  | Alt r1 r2 => nullable r1 || nullable r2
  end.

Fixpoint deriv (k : kind) (r : regex) : regex :=
  match r with
  | Fail | Eps => Fail
  | Sym p => if p k then Eps else Fail
  | Cat r1 r2 =>
      if nullable r1
      then Alt (Cat (deriv k r1) r2) (deriv k r2)
      else Cat (deriv k r1) r2
  | Alt r1 r2 => Alt (deriv k r1) (deriv k r2)
  | Star r => Cat (deriv k r) (Star r)
  end.

(** [/^r$/] on a list of kinds *)
Fixpoint regex_match (r : regex) (ks : list kind) : bool :=
  match ks with
  | [] => nullable r
  | k :: rest => regex_match (deriv k r) rest
  end.

(** [/^r$/.test(v)] *)
Definition test `{NumberText} (r : regex) (v : value) : exn + bool :=
  match ToString v with
  | inl e => inl e
  | inr s => inr (regex_match r (List.map fst (units s)))
  end.

End JS.

(** ** The validation middleware *)

Module FuncionarioMiddleware.
Import JS.

Record Request := { body : value; params : value }.

(** What a middleware does with its continuation: [next()], [next(err)],
    or an exception thrown before reaching either. *)
Inductive outcome :=
| next (err : option exn)
| throws (e : exn).

Definition camposObrigatorios : list string :=
  ["nomeFuncionario"; "email"; "senha"; "usuario"; "cargo"].

Definition validationError (message : string) : exn :=
  ErrorResponse 400 "Erro na validação de dados" message.

Definition obrigatorio (campo : string) : string :=
  "O campo '" ++ campo ++ "' é obrigatório!".

(** The [for (const campo of camposObrigatorios)] loop: [Some o] when the
    loop body returns [o], [None] when the loop runs to its end. *)
Fixpoint for_campos (funcionario : value) (campos : list string)
  : option outcome :=
  match campos with
  | [] => None
  | campo :: rest =>
      match get funcionario campo with
      | inl e => Some (throws e)
      | inr v =>
          if blank v
          then Some (next (Some (validationError (obrigatorio campo))))
          else for_campos funcionario rest
      end
  end.

Definition validateCreateBody (request : Request) : outcome :=
  let body := body request in
  if negb (truthy body)
  then next (Some (validationError (obrigatorio "funcionario")))
  else
    match get body "funcionario" with
    | inl e => throws e
    | inr funcionario =>
        if negb (truthy funcionario)
        then next (Some (validationError (obrigatorio "funcionario")))
        else
          match for_campos funcionario camposObrigatorios with
          | Some o => o
          | None =>
              match get funcionario "cargo" with
              | inl e => throws e
              | inr cargo =>
                  if negb (String.eqb (typeof cargo) "object")
                     || match cargo with null => true | _ => false end
                  then next (Some (validationError
                                     "O campo 'cargo' deve ser um objeto"))
                  else
                    match get cargo "idCargo" with
                    | inl e => throws e
                    | inr idCargo =>
                        if negb (isInteger idCargo) || le_zero idCargo
                        then next (Some (validationError
                               "O campo 'idCargo' deve ser um número inteiro positivo"))
                        else next None
                    end
              end
          end
    end.

(** [[^\s@]] *)
Definition notSpaceAt (k : kind) : bool :=
  match k with
  | White | At => false
  | _ => true
  end.

Definition isAt (k : kind) : bool :=
  match k with
  | At => true
  | _ => false
  end.

Definition isDot (k : kind) : bool :=
  match k with
  | Dot => true
  | _ => false
  end.

(** [/^[^\s@]+@[^\s@]+\.[^\s@]+$/] *)
Definition emailRegex : regex :=
  Cat (Plus (Sym notSpaceAt))
    (Cat (Sym isAt)
       (Cat (Plus (Sym notSpaceAt))
          (Cat (Sym isDot) (Plus (Sym notSpaceAt))))).

Section Login.
Context `{NumberText}.

(** The loop of [validateLoginBody] over its required fields. *)
Fixpoint for_campos_login (funcionario : value) (campos : list string)
  : option outcome :=
  match campos with
  | [] => None
  | campo :: rest =>
      match get funcionario campo with
      | inl e => Some (throws e)
      | inr v =>
          if negb (truthy v)
          then Some (next (Some (validationError (obrigatorio campo))))
          else
            match toString v with
            | inl e => Some (throws e)
            | inr s =>
                if String.eqb (trim s) ""
                then Some (next (Some (validationError (obrigatorio campo))))
                else for_campos_login funcionario rest
            end
      end
  end.

Definition validateLoginBody (request : Request) : outcome :=
  let body := body request in
  if negb (truthy body)
  then next (Some (validationError (obrigatorio "funcionario")))
  else
    match get body "funcionario" with
    | inl e => throws e
    | inr funcionario =>
        if negb (truthy funcionario)
        then next (Some (validationError (obrigatorio "funcionario")))
        else
          match for_campos_login funcionario ["email"; "senha"] with
          | Some o => o
          | None =>
              match get funcionario "email" with
              | inl e => throws e
              | inr email =>
                  match test emailRegex email with
                  | inl e => throws e
                  | inr ok =>
                      if negb ok
                      then next (Some (validationError
                                         "O campo 'email' não é um e-mail válido"))
                      else next None
                  end
              end
          end
    end.

End Login.

(** Modelled from the spec: the chaining of the handlers of a route, which
    is the work of the routes and of the framework and is not among the
    sources.  The spec (2, 7) has a request go through the validation layer
    and then to the service, and has a validation failure stop at the
    validation layer and never invoke the service: the handlers run in
    order, [next()] moves on to the following one and at last to the
    controller, [next(err)] and a thrown exception both skip everything that
    is left and hand the error to the error handler. *)
Fixpoint dispatch {R : Type} (handlers : list (Request → outcome))
    (controller : Request → R) (on_error : exn → R) (request : Request) : R :=
  match handlers with
  | [] => controller request
  | h :: rest =>
      match h request with
      | next None => dispatch rest controller on_error request
      | next (Some e) | throws e => on_error e
      end
  end.

End FuncionarioMiddleware.

(** ** The database *)

(** The rows of the two tables, by their column names.  [idFuncionario] is
    the auto-increment key of [funcionario]. *)
Module Table.

Record Cargo := { idCargo : Z; nomeCargo : string }.

Record Funcionario := {
  idFuncionario : Z;
  nomeFuncionario : string;
  email : string;
  usuario : string;
  senha : string;
  Cargo_idCargo : Z
}.

End Table.

(** A column value. *)
Inductive sqlval :=
| SqlInt (z : Z)
| SqlStr (s : string).

(** What is the server's own, and its driver's (database/MysqlDatabase and
    the client library, which are not among the sources): the message of the
    error for a text that the server does not parse, and the comparison
    [column = ?] with a parameter that is not of the type of the column,
    which the driver sends as it is and the server converts before it
    compares. *)
Class MysqlDatabase := {
  ER_PARSE_ERROR : string → string;
  converted_eq : sqlval → JS.value → bool
}.

(** [column = ?].  A number that is an integer matches the integer column
    that holds it and a string matches the text column that holds it, the
    strings compared exactly, as the spec has the look-ups (4.2); a
    parameter of another type is converted by the server. *)
Definition sql_eqb `{MysqlDatabase} (column : sqlval) (param : JS.value) : bool :=
  match column, param with
  | SqlInt x, JS.Num (JS.Int y) => x =? y
  | SqlStr x, JS.Str y => String.eqb x y
  | _, _ => converted_eq column param
  end.

(** The columns of [funcionario]: the reader of the column with a given
    name, if there is one. *)
Definition column (name : string) : option (Table.Funcionario → sqlval) :=
  if String.eqb name "idFuncionario" then Some (λ row, SqlInt (Table.idFuncionario row))
  else if String.eqb name "nomeFuncionario" then Some (λ row, SqlStr (Table.nomeFuncionario row))
  else if String.eqb name "email" then Some (λ row, SqlStr (Table.email row))
  else if String.eqb name "usuario" then Some (λ row, SqlStr (Table.usuario row))
  else if String.eqb name "senha" then Some (λ row, SqlStr (Table.senha row))
  else if String.eqb name "Cargo_idCargo" then Some (λ row, SqlInt (Table.Cargo_idCargo row))
  else None.

(** The header a write statement answers with. *)
Record ResultSetHeader := { insertId : Z; affectedRows : Z }.

(** The statements the code sends, each with the parameters it binds; the
    index is the type of what [pool.execute] answers with. *)
Inductive statement : Type → Type :=
| INSERT_INTO_funcionario (params : list JS.value)
  : statement ResultSetHeader
| DELETE_FROM_funcionario (idFuncionario : JS.value)
  : statement ResultSetHeader
| UPDATE_funcionario_SET_senha (params : list JS.value)
  : statement ResultSetHeader
| UPDATE_funcionario (params : list JS.value)
  : statement ResultSetHeader
| SELECT_funcionario_JOIN_cargo
  : statement (list (Table.Funcionario * Table.Cargo))
| SELECT_funcionario_WHERE (field : string) (value : JS.value)
  : statement (list Table.Funcionario)
| SELECT_funcionario_JOIN_cargo_WHERE_email (email : JS.value)
  : statement (list (Table.Funcionario * Table.Cargo))
| SELECT_cargo_WHERE_idCargo (idCargo : Z)
  : statement (list Table.Cargo).

Definition is_write {R : Type} (s : statement R) : bool :=
  match s with
  | INSERT_INTO_funcionario _
  | DELETE_FROM_funcionario _
  | UPDATE_funcionario_SET_senha _
  | UPDATE_funcionario _ => true
  | _ => false
  end.

(** [params], the array handed to [pool.execute] next to the text. *)
Definition params_of {R : Type} (s : statement R) : list JS.value :=
  match s with
  | INSERT_INTO_funcionario params
  | UPDATE_funcionario_SET_senha params
  | UPDATE_funcionario params => params
  | DELETE_FROM_funcionario idFuncionario => [idFuncionario]
  | SELECT_funcionario_JOIN_cargo => []
  | SELECT_funcionario_WHERE _ value => [value]
  | SELECT_funcionario_JOIN_cargo_WHERE_email email => [email]
  | SELECT_cargo_WHERE_idCargo idCargo => [JS.Num (JS.Int idCargo)]
  end.

(** *** The texts *)

(** U+00A0, the no-break space, in UTF-8, and the line feed. *)
Definition U00A0 : string :=
  String (Ascii.ascii_of_N 194) (String (Ascii.ascii_of_N 160) "").

Definition LF : string := String (Ascii.ascii_of_N 10) "".

(** The indentation of the lines of the template literals of the gateway:
    U+00A0 and a space, over and over. *)
Fixpoint indent (n : nat) : string :=
  match n with
  | O => ""
  | S n => U00A0 ++ " " ++ indent n
  end.

(** [SQL], the text of a statement, byte for byte as the source has it: a
    template literal begins with the line feed after its back quote and
    keeps the indentation of its lines.  The text of the look-up of roles is
    in api/dao/CargoDAO.js, which is not among the sources: a text in one
    line stands for it. *)
Definition SQL {R : Type} (s : statement R) : string :=
  match s with
  | INSERT_INTO_funcionario _ =>
      LF ++ indent 6 ++ "INSERT INTO funcionario "
      ++ LF ++ indent 6 ++ "(nomeFuncionario, email, usuario, senha, Cargo_idCargo) "
      ++ LF ++ indent 6 ++ "VALUES (?, ?, ?, ?, ?);"
  | DELETE_FROM_funcionario _ =>
      "DELETE FROM funcionario WHERE idFuncionario = ?;"
  | UPDATE_funcionario_SET_senha _ =>
      LF ++ indent 8 ++ "UPDATE funcionario "
      ++ LF ++ indent 8
      ++ "SET nomeFuncionario=?, email=?, usuario=?, senha=?, Cargo_idCargo=? "
      ++ LF ++ indent 8 ++ "WHERE idFuncionario=?;"
  | UPDATE_funcionario _ =>
      LF ++ indent 8 ++ "UPDATE funcionario "
      ++ LF ++ indent 8 ++ "SET nomeFuncionario=?, email=?, usuario=?, Cargo_idCargo=? "
      ++ LF ++ indent 8 ++ "WHERE idFuncionario=?;"
  | SELECT_funcionario_JOIN_cargo =>
      LF ++ indent 6
      ++ "SELECT idFuncionario, nomeFuncionario, email, usuario, idCargo, nomeCargo "
      ++ LF ++ indent 6 ++ "FROM funcionario"
      ++ LF ++ indent 6 ++ "JOIN cargo ON funcionario.Cargo_idCargo = idCargo;"
  | SELECT_funcionario_WHERE field _ =>
      "SELECT * FROM funcionario WHERE " ++ field ++ " = ?;"
  | SELECT_funcionario_JOIN_cargo_WHERE_email _ =>
      LF ++ indent 6
      ++ "SELECT idFuncionario, nomeFuncionario, email, usuario, senha, idCargo, nomeCargo"
      ++ LF ++ indent 6 ++ "FROM funcionario"
      ++ LF ++ indent 6 ++ "JOIN cargo ON cargo.idCargo = funcionario.Cargo_idCargo"
      ++ LF ++ indent 6 ++ "WHERE email = ?;"
  | SELECT_cargo_WHERE_idCargo _ =>
      "SELECT * FROM cargo WHERE idCargo = ?;"
  end.

(** The white space of the server: the tabulation, the line feed, the
    vertical tabulation, the form feed, the carriage return and the space.
    U+00A0 is not among them: the server takes a byte above the ASCII range
    for a character of an identifier. *)
Definition sql_space (c : Ascii.ascii) : bool :=
  let a := Ascii.N_of_ascii c in
  ((9 <=? a) && (a <=? 13) || (a =? 32))%N.

Fixpoint skip_space (text : string) : string :=
  match text with
  | String c rest => if sql_space c then skip_space rest else text
  | EmptyString => text
  end.

(** A text that begins, after its white space, with U+00A0 begins with an
    identifier, as no statement does: the server does not parse it. *)
Definition refused (text : string) : bool :=
  match skip_space text with
  | String c1 (String c2 _) =>
      ((Ascii.N_of_ascii c1 =? 194) && (Ascii.N_of_ascii c2 =? 160))%N
  | _ => false
  end.

(** ** The model objects *)

Module Model.

(** Modelled from the spec: the class [Cargo] of api/model, which is not
    among the sources, as a plain object with the properties the service and
    the gateway set and read; a property that was never set is
    [undefined]. *)
Record Cargo := { idCargo : JS.value; nomeCargo : JS.value }.

(** Modelled from the spec: the class [Funcionario] of api/model, which is
    not among the sources, as a plain object in the same way. *)
Record Funcionario := {
  idFuncionario : JS.value;
  nomeFuncionario : JS.value;
  email : JS.value;
  usuario : JS.value;
  senha : JS.value;
  cargo : option Cargo
}.

(** [new Cargo()], [new Funcionario()] *)
Definition new_Cargo : Cargo :=
  {| idCargo := JS.undefined; nomeCargo := JS.undefined |}.

Definition new_Funcionario : Funcionario :=
  {| idFuncionario := JS.undefined; nomeFuncionario := JS.undefined;
     email := JS.undefined; usuario := JS.undefined; senha := JS.undefined;
     cargo := None |}.

Definition set_idCargo (v : JS.value) (c : Cargo) : Cargo :=
  {| idCargo := v; nomeCargo := nomeCargo c |}.

Definition set_nomeCargo (v : JS.value) (c : Cargo) : Cargo :=
  {| idCargo := idCargo c; nomeCargo := v |}.

Definition set_idFuncionario (v : JS.value) (f : Funcionario) : Funcionario :=
  {| idFuncionario := v; nomeFuncionario := nomeFuncionario f;
     email := email f; usuario := usuario f; senha := senha f;
     cargo := cargo f |}.

Definition set_nomeFuncionario (v : JS.value) (f : Funcionario) : Funcionario :=
  {| idFuncionario := idFuncionario f; nomeFuncionario := v;
     email := email f; usuario := usuario f; senha := senha f;
     cargo := cargo f |}.

Definition set_email (v : JS.value) (f : Funcionario) : Funcionario :=
  {| idFuncionario := idFuncionario f; nomeFuncionario := nomeFuncionario f;
     email := v; usuario := usuario f; senha := senha f; cargo := cargo f |}.

Definition set_usuario (v : JS.value) (f : Funcionario) : Funcionario :=
  {| idFuncionario := idFuncionario f; nomeFuncionario := nomeFuncionario f;
     email := email f; usuario := v; senha := senha f; cargo := cargo f |}.

Definition set_senha (v : JS.value) (f : Funcionario) : Funcionario :=
  {| idFuncionario := idFuncionario f; nomeFuncionario := nomeFuncionario f;
     email := email f; usuario := usuario f; senha := v; cargo := cargo f |}.

Definition set_cargo (v : option Cargo) (f : Funcionario) : Funcionario :=
  {| idFuncionario := idFuncionario f; nomeFuncionario := nomeFuncionario f;
     email := email f; usuario := usuario f; senha := senha f; cargo := v |}.

End Model.

(** A reference to a [Funcionario] object: the service hands the gateway the
    object itself, not a copy, and the gateway writes to it. *)
Definition ref := nat.

(** ** The world *)

(** What the code has done, in order: the statements it has sent, refused
    or not, and the hashes it has computed and compared. *)
Inductive event :=
| Execute {R : Type} (sql : statement R)
| Hash (data salt : string)
| Compare (data hash : string).

Definition is_write_event (e : event) : bool :=
  match e with
  | Execute sql => is_write sql
  | _ => false
  end.

Definition is_compare_event (e : event) : bool :=
  match e with
  | Compare _ _ => true
  | _ => false
  end.

(** [AUTO_INCREMENT] is the key the server hands out next. *)
Record World := {
  funcionario : list Table.Funcionario;
  cargo : list Table.Cargo;
  AUTO_INCREMENT : Z;
  heap : list Model.Funcionario;
  salts : nat;
  log : list event
}.

Definition with_funcionario (rows : list Table.Funcionario) (w : World) : World :=
  {| funcionario := rows; cargo := cargo w; AUTO_INCREMENT := AUTO_INCREMENT w;
     heap := heap w; salts := salts w; log := log w |}.

Definition with_heap (h : list Model.Funcionario) (w : World) : World :=
  {| funcionario := funcionario w; cargo := cargo w;
     AUTO_INCREMENT := AUTO_INCREMENT w; heap := h; salts := salts w;
     log := log w |}.

Definition with_salts (n : nat) (w : World) : World :=
  {| funcionario := funcionario w; cargo := cargo w;
     AUTO_INCREMENT := AUTO_INCREMENT w; heap := heap w; salts := n;
     log := log w |}.

Definition logged (e : event) (w : World) : World :=
  {| funcionario := funcionario w; cargo := cargo w;
     AUTO_INCREMENT := AUTO_INCREMENT w; heap := heap w; salts := salts w;
     log := log w ++ [e] |}.

(** ** The monad of the asynchronous code *)

(** A call of the service or of the gateway, from its first statement to its
    last, run on its own.  The calls of requests that arrive together
    interleave at their awaits, statement by statement: what holds of them
    is what holds of every single statement ([execute]), and a property of a
    whole call, stated on this monad, is a property of a call that runs
    alone. *)
Definition M (A : Type) : Type := World → (exn + A) * World.

Definition ret {A : Type} (a : A) : M A := λ w, (inr a, w).

Definition throw {A : Type} (e : exn) : M A := λ w, (inl e, w).

Definition bind {A B : Type} (c : M A) (k : A → M B) : M B :=
  λ w, match c w with
       | (inl e, w') => (inl e, w')
       | (inr a, w') => k a w'
       end.

Notation "'let*' x := c 'in' k" := (bind c (λ x, k))
  (at level 10, x name, c at level 100, k at level 200).

Notation "c ;; k" := (bind c (λ _, k))
  (at level 100, k at level 200, right associativity).

(** The value of an expression that may throw. *)
Definition lift {A : Type} (r : exn + A) : M A :=
  match r with
  | inl e => throw e
  | inr a => ret a
  end.

(** [new Funcionario()] *)
Definition new_Funcionario : M ref :=
  λ w, (inr (length (heap w)), with_heap (heap w ++ [Model.new_Funcionario]) w).

(** Reading the object behind a reference. *)
Definition deref (r : ref) : M Model.Funcionario :=
  λ w, match heap w !! r with
       | Some o => (inr o, w)
       | None => (inl (TypeError "Cannot read properties of undefined"), w)
       end.

(** [r.property = v], by the setter of the property. *)
Definition assign (r : ref) (setter : Model.Funcionario → Model.Funcionario) : M unit :=
  λ w, match heap w !! r with
       | Some o => (inr tt, with_heap (<[r := setter o]> (heap w)) w)
       | None => (inl (TypeError "Cannot set properties of undefined"), w)
       end.

(** ** The database server *)

(** [funcionario JOIN cargo ON cargo.idCargo = funcionario.Cargo_idCargo]:
    every employee next to every role of the identifier it refers to. *)
Definition JOIN_cargo (fs : list Table.Funcionario) (cs : list Table.Cargo)
  : list (Table.Funcionario * Table.Cargo) :=
  List.flat_map
    (λ f, List.map (λ c, (f, c))
            (List.filter (λ c, Table.idCargo c =? Table.Cargo_idCargo f) cs))
    fs.

Definition is_undefined (v : JS.value) : bool :=
  match v with
  | JS.undefined => true
  | _ => false
  end.

Section Server.
Context {DB : MysqlDatabase}.

(** What the server does with a statement, by its text.  A text it does not
    parse is answered with the error of the syntax and nothing is done: that
    is the lot of every text of several lines.  The texts in one line are
    parsed: [DELETE] answers with the number of rows its [WHERE] matched and
    removes them, a [SELECT] answers with the matching rows in table order;
    a [WHERE] on anything but a column is answered with an error. *)
Definition run {R : Type} (sql : statement R) (w : World) : (exn + R) * World :=
  if refused (SQL sql)
  then (inl (Error (ER_PARSE_ERROR (SQL sql))), w)
  else
    match sql in statement R return (exn + R) * World with
    | DELETE_FROM_funcionario id =>
        let hit := λ row, sql_eqb (SqlInt (Table.idFuncionario row)) id in
        (inr {| insertId := 0;
                affectedRows := Z.of_nat (length (List.filter hit (funcionario w))) |},
         with_funcionario (List.filter (λ row, negb (hit row)) (funcionario w)) w)
    | SELECT_funcionario_WHERE field value =>
        match column field with
        | Some read =>
            (inr (List.filter (λ row, sql_eqb (read row) value) (funcionario w)), w)
        | None =>
            (inl (Error ("Unknown column '" ++ field ++ "' in 'where clause'")), w)
        end
    | SELECT_cargo_WHERE_idCargo id =>
        (inr (List.filter (λ c, Table.idCargo c =? id) (cargo w)), w)
    | sql => (inl (Error (ER_PARSE_ERROR (SQL sql))), w)
    end.

(** [pool.execute(SQL, params)]: the driver refuses a parameter that is
    undefined before it sends anything; otherwise the statement is sent,
    then answered. *)
Definition execute {R : Type} (sql : statement R) : M R :=
  if existsb is_undefined (params_of sql)
  then throw (TypeError "Bind parameters must not contain undefined. To pass SQL NULL specify JS null")
  else λ w, run sql (logged (Execute sql) w).

End Server.

(** The plain objects [findAll] answers with: the employee without its
    password, and its role inside it. *)
Module Listing.

Record Funcionario := {
  idFuncionario : Z;
  nomeFuncionario : string;
  email : string;
  usuario : string;
  cargo : Table.Cargo
}.

End Listing.

(** ** The collaborators *)

(** The password hasher.  [genSalt rounds n] is the [n]-th salt the process
    draws, [hashSync data salt] the hash of [data] under that salt and
    [compareSync data hash] the verification of [data] against a hash. *)
Class Bcrypt := {
  genSalt : Z → nat → string;
  hashSync : string → string → string;
  compareSync : string → string → bool
}.

(** A hash verifies the data it was made from. *)
Definition verifies (B : Bcrypt) : Prop :=
  ∀ data salt, compareSync data (hashSync data salt) = true.

(** A hash is never the data it was made from. *)
Definition one_way (B : Bcrypt) : Prop :=
  ∀ data salt, hashSync data salt ≠ data.

(** [await bcrypt.hash(data, rounds)]: a fresh salt each time; data that is
    missing, or that is no string, is refused. *)
Definition bcrypt_hash `{Bcrypt} (data : JS.value) (rounds : Z) : M string :=
  match data with
  | JS.undefined | JS.null => throw (Error "data and salt arguments required")
  | JS.Str d =>
      λ w, let salt := genSalt rounds (salts w) in
           (inr (hashSync d salt), logged (Hash d salt) (with_salts (S (salts w)) w))
  | _ =>
      throw (Error "data must be a string or Buffer and salt must either be a salt string or a number of rounds")
  end.

(** [await bcrypt.compare(data, hash)] *)
Definition bcrypt_compare `{Bcrypt} (data : JS.value) (hash : string) : M bool :=
  match data with
  | JS.undefined | JS.null => throw (Error "data and hash arguments required")
  | JS.Str d => λ w, (inr (compareSync d hash), logged (Compare d hash) w)
  | _ => throw (Error "data and hash must be strings")
  end.

(** The claims of a session token, and the issuer of tokens (http/MeuTokenJWT,
    which is not among the sources): a collaborator the service is given. *)
Record Claims := {
  claim_email : JS.value;
  claim_usuario : JS.value;
  claim_role : JS.value;
  claim_name : JS.value;
  claim_idFuncionario : JS.value
}.

Class MeuTokenJWT := { gerarToken : Claims → string }.

(** [`${n}`] for a number [n] that is an integer: the text the language
    writes for it, in digits or, for a large one, with an exponent. *)
Definition Number_toString `{JS.NumberText} (n : Z) : string :=
  JS.Number_prototype_toString (JS.Int n).

(** [v || null] *)
Definition or_null (v : JS.value) : JS.value :=
  if JS.truthy v then v else JS.null.

(** The truth of an object or null in a condition. *)
Definition is_Some_bool {A : Type} (o : option A) : bool :=
  match o with
  | Some _ => true
  | None => false
  end.

(** [o.cargo.idCargo]: reading [idCargo] of an undefined [cargo] throws. *)
Definition cargo_idCargo (o : Model.Funcionario) : M JS.value :=
  match Model.cargo o with
  | Some c => ret (Model.idCargo c)
  | None => throw (TypeError "Cannot read properties of undefined (reading 'idCargo')")
  end.

(** ** The persistence gateway of employees *)

Module FuncionarioDAO.
Section FuncionarioDAO.
Context {DB : MysqlDatabase} {B : Bcrypt}.

Definition create (objFuncionarioModel : ref) : M Z :=
  let* o := deref objFuncionarioModel in
  let* hash := bcrypt_hash (Model.senha o) 12 in
  assign objFuncionarioModel (Model.set_senha (JS.Str hash));;
  let* o := deref objFuncionarioModel in
  let* idCargo := cargo_idCargo o in
  let params :=
    [Model.nomeFuncionario o; Model.email o; Model.usuario o; Model.senha o;
     idCargo] in
  let* resultado := execute (INSERT_INTO_funcionario params) in
  if insertId resultado =? 0
  then throw (Error "Falha ao inserir funcionário")
  else ret (insertId resultado).

Definition delete (objFuncionarioModel : ref) : M bool :=
  let* o := deref objFuncionarioModel in
  let* resultado := execute (DELETE_FROM_funcionario (Model.idFuncionario o)) in
  ret (0 <? affectedRows resultado).

Definition update (objFuncionarioModel : ref) : M bool :=
  let* o := deref objFuncionarioModel in
  if JS.truthy (Model.senha o)
  then
    let* senhaHash := bcrypt_hash (Model.senha o) 12 in
    let* idCargo := cargo_idCargo o in
    let params :=
      [Model.nomeFuncionario o; Model.email o; Model.usuario o;
       JS.Str senhaHash; idCargo; Model.idFuncionario o] in
    let* resultado := execute (UPDATE_funcionario_SET_senha params) in
    ret (0 <? affectedRows resultado)
  else
    let* idCargo := cargo_idCargo o in
    let params :=
      [Model.nomeFuncionario o; Model.email o; Model.usuario o; idCargo;
       Model.idFuncionario o] in
    let* resultado := execute (UPDATE_funcionario params) in
    ret (0 <? affectedRows resultado).

Definition findAll : M (list Listing.Funcionario) :=
  let* matrizDados := execute SELECT_funcionario_JOIN_cargo in
  ret (List.map
         (λ row : Table.Funcionario * Table.Cargo,
            {| Listing.idFuncionario := Table.idFuncionario (fst row);
               Listing.nomeFuncionario := Table.nomeFuncionario (fst row);
               Listing.email := Table.email (fst row);
               Listing.usuario := Table.usuario (fst row);
               Listing.cargo :=
                 {| Table.idCargo := Table.idCargo (snd row);
                    Table.nomeCargo := Table.nomeCargo (snd row) |} |})
         matrizDados).

Definition allowedFields : list string :=
  ["idFuncionario"; "nomeFuncionario"; "email"; "usuario"; "senha";
   "Cargo_idCargo"].

(** [allowedFields.includes(field)] *)
Definition includes (fields : list string) (field : string) : bool :=
  existsb (String.eqb field) fields.

Definition findByField (field : string) (value : JS.value)
  : M (list Table.Funcionario) :=
  if negb (includes allowedFields field)
  then throw (Error ("Campo inválido para busca: " ++ field))
  else
    let* rows := execute (SELECT_funcionario_WHERE field value) in
    ret rows.

Definition findById (idFuncionario : JS.value) : M (option Table.Funcionario) :=
  let* resultado := findByField "idFuncionario" idFuncionario in
  ret (head resultado).

(** What [login] does with the answer of its look-up (lines 217 to 245). *)
Definition login_resultado (o : Model.Funcionario)
    (resultado : list (Table.Funcionario * Table.Cargo)) : M (option ref) :=
  match resultado with
  | [funcionarioDB] =>
      let* senhaValida :=
        bcrypt_compare (Model.senha o) (Table.senha (fst funcionarioDB)) in
      if negb senhaValida
      then ret None
      else
        let objCargo :=
          Model.set_nomeCargo (JS.Str (Table.nomeCargo (snd funcionarioDB)))
            (Model.set_idCargo (JS.Num (JS.Int (Table.idCargo (snd funcionarioDB))))
               Model.new_Cargo) in
        let* funcionario := new_Funcionario in
        assign funcionario
          (Model.set_idFuncionario
             (JS.Num (JS.Int (Table.idFuncionario (fst funcionarioDB)))));;
        assign funcionario
          (Model.set_nomeFuncionario (JS.Str (Table.nomeFuncionario (fst funcionarioDB))));;
        assign funcionario (Model.set_email (JS.Str (Table.email (fst funcionarioDB))));;
        assign funcionario (Model.set_usuario (JS.Str (Table.usuario (fst funcionarioDB))));;
        assign funcionario (Model.set_cargo (Some objCargo));;
        ret (Some funcionario)
  | _ => ret None
  end.

Definition login (objFuncionarioModel : ref) : M (option ref) :=
  let* o := deref objFuncionarioModel in
  let* resultado :=
    execute (SELECT_funcionario_JOIN_cargo_WHERE_email (Model.email o)) in
  login_resultado o resultado.

End FuncionarioDAO.
End FuncionarioDAO.

(** ** The persistence gateway of roles *)

Module CargoDAO.

(** Modelled from the spec: [CargoDAO.findById], whose file (api/dao/CargoDAO.js)
    is not among the sources: a look-up of the role by its identifier that
    answers the role, or null when there is none. *)
Definition findById `{MysqlDatabase} (idCargo : Z) : M (option Table.Cargo) :=
  let* rows := execute (SELECT_cargo_WHERE_idCargo idCargo) in
  ret (head rows).

End CargoDAO.

(** ** The workflow service *)

(** The [jsonFuncionario] of a create request, at the types the JSDoc of
    [createFuncionario] gives its fields. *)
Module Json.

Record Cargo := { idCargo : Z }.

Record Funcionario := {
  nomeFuncionario : string;
  email : string;
  senha : string;
  usuario : string;
  cargo : Cargo
}.

End Json.

Module FuncionarioService.
Section FuncionarioService.
Context {DB : MysqlDatabase} {N : JS.NumberText} {B : Bcrypt} {J : MeuTokenJWT}.

Definition cargoNaoExiste (idCargo : Z) : exn :=
  ErrorResponse 400 "O cargo informado não existe"
    ("O Cargo com ID " ++ Number_toString idCargo ++ " não foi encontrado.").

Definition emailDuplicado (email : string) : exn :=
  ErrorResponse 400 "Já existe um Funcionário com o email fornecido"
    ("O email " ++ email ++ " já está cadastrado").

Definition usuarioDuplicado (usuario : string) : exn :=
  ErrorResponse 400 "Já existe um Funcionário com o usuário fornecido"
    ("O usuário " ++ usuario ++ " já está cadastrado").

Definition naoAutorizado : exn :=
  ErrorResponse 401 "Usuário ou senha inválidos"
    "Não foi possível realizar autenticação".

Definition naoEncontrado (idFuncionario : Z) : exn :=
  ErrorResponse 404 "Funcionário não encontrado"
    ("Não existe funcionário com id " ++ Number_toString idFuncionario).

Definition createFuncionario (jsonFuncionario : Json.Funcionario) : M ref :=
  let idCargo := Json.idCargo (Json.cargo jsonFuncionario) in
  let* cargoExiste := CargoDAO.findById idCargo in
  if negb (is_Some_bool cargoExiste)
  then throw (cargoNaoExiste idCargo)
  else
    let* emailExiste :=
      FuncionarioDAO.findByField "email" (JS.Str (Json.email jsonFuncionario)) in
    if (0 <? length emailExiste)%nat
    then throw (emailDuplicado (Json.email jsonFuncionario))
    else
      let* usuarioExiste :=
        FuncionarioDAO.findByField "usuario" (JS.Str (Json.usuario jsonFuncionario)) in
      if (0 <? length usuarioExiste)%nat
      then throw (usuarioDuplicado (Json.usuario jsonFuncionario))
      else
        let objetoCargo :=
          Model.set_idCargo (JS.Num (JS.Int idCargo)) Model.new_Cargo in
        let* objFuncionario := new_Funcionario in
        assign objFuncionario
          (Model.set_nomeFuncionario (JS.Str (Json.nomeFuncionario jsonFuncionario)));;
        assign objFuncionario (Model.set_email (JS.Str (Json.email jsonFuncionario)));;
        assign objFuncionario (Model.set_usuario (JS.Str (Json.usuario jsonFuncionario)));;
        assign objFuncionario (Model.set_senha (JS.Str (Json.senha jsonFuncionario)));;
        assign objFuncionario (Model.set_cargo (Some objetoCargo));;
        let* id := FuncionarioDAO.create objFuncionario in
        assign objFuncionario (Model.set_idFuncionario (JS.Num (JS.Int id)));;
        ret objFuncionario.

Record Session := { user : Claims; token : string }.

(** [jsonFuncionario] is a plain object of the request, [{ email, senha }]
    by the JSDoc, with no type for either. *)
Definition loginFuncionario (jsonFuncionario : JS.value) : M Session :=
  let* objetoFuncionario := new_Funcionario in
  let* email := lift (JS.get jsonFuncionario "email") in
  assign objetoFuncionario (Model.set_email email);;
  let* senha := lift (JS.get jsonFuncionario "senha") in
  assign objetoFuncionario (Model.set_senha senha);;
  let* encontrado := FuncionarioDAO.login objetoFuncionario in
  match encontrado with
  | None => throw naoAutorizado
  | Some encontrado =>
      let* e := deref encontrado in
      let user :=
        {| claim_email := Model.email e;
           claim_usuario := Model.usuario e;
           claim_role :=
             or_null (from_option Model.nomeCargo JS.undefined (Model.cargo e));
           claim_name := or_null (Model.nomeFuncionario e);
           claim_idFuncionario := Model.idFuncionario e |} in
      ret {| user := user; token := gerarToken user |}
  end.

Definition findAll : M (list Listing.Funcionario) :=
  FuncionarioDAO.findAll.

Definition findById (idFuncionario : Z) : M Table.Funcionario :=
  let* objFuncionario := new_Funcionario in
  assign objFuncionario (Model.set_idFuncionario (JS.Num (JS.Int idFuncionario)));;
  let* o := deref objFuncionario in
  let* funcionario := FuncionarioDAO.findById (Model.idFuncionario o) in
  match funcionario with
  | None => throw (naoEncontrado idFuncionario)
  | Some funcionario => ret funcionario
  end.

(** [requestBody] is the body of the request as it was parsed: the JSDoc
    gives it no type, and nothing in the sources checks it before. *)
Definition updateFuncionario (idFuncionario : Z) (requestBody : JS.value)
  : M bool :=
  let* jsonFuncionario := lift (JS.get requestBody "funcionario") in
  let* cargo := lift (JS.get jsonFuncionario "cargo") in
  let* idCargo := lift (JS.get cargo "idCargo") in
  let objCargo := Model.set_idCargo idCargo Model.new_Cargo in
  let* objFuncionario := new_Funcionario in
  assign objFuncionario (Model.set_idFuncionario (JS.Num (JS.Int idFuncionario)));;
  let* nomeFuncionario := lift (JS.get jsonFuncionario "nomeFuncionario") in
  assign objFuncionario (Model.set_nomeFuncionario nomeFuncionario);;
  let* email := lift (JS.get jsonFuncionario "email") in
  assign objFuncionario (Model.set_email email);;
  let* usuario := lift (JS.get jsonFuncionario "usuario") in
  assign objFuncionario (Model.set_usuario usuario);;
  let* senha := lift (JS.get jsonFuncionario "senha") in
  assign objFuncionario (Model.set_senha senha);;
  assign objFuncionario (Model.set_cargo (Some objCargo));;
  FuncionarioDAO.update objFuncionario.

Definition deleteFuncionario (idFuncionario : Z) : M bool :=
  let* funcionario := new_Funcionario in
  assign funcionario (Model.set_idFuncionario (JS.Num (JS.Int idFuncionario)));;
  FuncionarioDAO.delete funcionario.

End FuncionarioService.
End FuncionarioService.

(** ** Observations on a run *)


(** Nothing was written between [w] and [w']: the tables and the key counter
    are what they were and no write statement was sent. *)
Definition no_write (w w' : World) : Prop :=
  funcionario w' = funcionario w
  ∧ cargo w' = cargo w
  ∧ AUTO_INCREMENT w' = AUTO_INCREMENT w
  ∧ List.filter is_write_event (log w') = List.filter is_write_event (log w).

(** The tables and the key counter are what they were. *)
Definition same_tables (w w' : World) : Prop :=
  funcionario w' = funcionario w
  ∧ cargo w' = cargo w
  ∧ AUTO_INCREMENT w' = AUTO_INCREMENT w.

(** A computation that keeps the tables, and one that moreover always
    throws. *)
Definition keeps_tables {A : Type} (c : M A) : Prop :=
  ∀ w, same_tables w (snd (c w)).

Definition always_throws {A : Type} (c : M A) : Prop :=
  ∀ w, ∃ e w', c w = (inl e, w') ∧ same_tables w w'.

(** No hash was compared between [w] and [w']. *)
Definition no_compare (w w' : World) : Prop :=
  List.filter is_compare_event (log w') = List.filter is_compare_event (log w).

(** A required field that is absent, null or the empty string. *)
Definition absent (v : JS.value) : Prop :=
  v = JS.undefined ∨ v = JS.null ∨ v = JS.Str "".

(** The object [createFuncionario] assembles from a request, with a given
    password property. *)
Definition assembled (jsonFuncionario : Json.Funcionario) (senha : JS.value)
  : Model.Funcionario :=
  {| Model.idFuncionario := JS.undefined;
     Model.nomeFuncionario := JS.Str (Json.nomeFuncionario jsonFuncionario);
     Model.email := JS.Str (Json.email jsonFuncionario);
     Model.usuario := JS.Str (Json.usuario jsonFuncionario);
     Model.senha := senha;
     Model.cargo :=
       Some {| Model.idCargo :=
                 JS.Num (JS.Int (Json.idCargo (Json.cargo jsonFuncionario)));
               Model.nomeCargo := JS.undefined |} |}.

(** The three look-ups of [createFuncionario], as statements and as
    conditions on the tables. *)
Definition lookups (jsonFuncionario : Json.Funcionario) : list event :=
  [Execute (SELECT_cargo_WHERE_idCargo (Json.idCargo (Json.cargo jsonFuncionario)));
   Execute (SELECT_funcionario_WHERE "email" (JS.Str (Json.email jsonFuncionario)));
   Execute (SELECT_funcionario_WHERE "usuario" (JS.Str (Json.usuario jsonFuncionario)))].

Definition role_exists (idCargo : Z) (w : World) : Prop :=
  ∃ c, In c (cargo w) ∧ Table.idCargo c = idCargo.

Definition email_taken (email : string) (w : World) : Prop :=
  ∃ f, In f (funcionario w) ∧ Table.email f = email.

Definition usuario_taken (usuario : string) (w : World) : Prop :=
  ∃ f, In f (funcionario w) ∧ Table.usuario f = usuario.

(** The two conflict errors of the service. *)
Definition conflict (e : exn) : Prop :=
  ∃ v, e = FuncionarioService.emailDuplicado v
       ∨ e = FuncionarioService.usuarioDuplicado v.

(** The error of the driver for a statement that the server does not
    parse. *)
Definition syntax_error `{MysqlDatabase} {R : Type} (sql : statement R) : exn :=
  Error (ER_PARSE_ERROR (SQL sql)).

(** The parameters [create] binds for the object of a request. *)
Definition create_params (jsonFuncionario : Json.Funcionario) (hash : string)
  : list JS.value :=
  [JS.Str (Json.nomeFuncionario jsonFuncionario);
   JS.Str (Json.email jsonFuncionario);
   JS.Str (Json.usuario jsonFuncionario);
   JS.Str hash;
   JS.Num (JS.Int (Json.idCargo (Json.cargo jsonFuncionario)))].

(** The text of a number tells the number: the language reads the text it
    writes for a number back into that number. *)
Definition tells_apart (N : JS.NumberText) : Prop :=
  ∀ a b : Z, Number_toString a = Number_toString b → a = b.



(** Some stored employee has the identifier. *)
Definition stored (idFuncionario : Z) (w : World) : Prop :=
  ∃ f, In f (funcionario w) ∧ Table.idFuncionario f = idFuncionario.



(** The decimal digits of an integer. *)
Definition decimal (n : Z) : string :=
  NilZero.string_of_int (Z.to_int n).

(** ** A small instance *)

Module Exemplo.

(** A server for examples: one message for every text it does not parse,
    and a conversion under which an integer column matches the string of
    its digits and nothing else matches. *)
Definition mysql : MysqlDatabase :=
  {| ER_PARSE_ERROR := λ text, "You have an error in your SQL syntax";
     converted_eq := λ column param,
       match column, param with
       | SqlInt x, JS.Str s => String.eqb (decimal x) s
       | _, _ => false
       end |}.

(** A writer of numbers for examples: integers in decimal digits. *)
Definition numeros : JS.NumberText :=
  {| JS.Number_prototype_toString := λ n,
       match n with
       | JS.Int z => decimal z
       | JS.Frac => "0.5"
       | JS.NaN => "NaN"
       | JS.Infinity negative => if negative then "-Infinity" else "Infinity"
       end |}.

(** A hasher for examples: the hash of a password is the password behind a
    marker. *)
Definition bcrypt : Bcrypt :=
  {| genSalt := λ rounds n, decimal rounds ++ "$" ++ decimal (Z.of_nat n);
     hashSync := λ data salt, "$" ++ data;
     compareSync := λ data hash, String.eqb hash ("$" ++ data) |}.

Definition jwt : MeuTokenJWT :=
  {| gerarToken := λ claims,
       "token:" ++ match claim_email claims with
                   | JS.Str s => s
                   | _ => ""
                   end |}.

Definition analista : Table.Cargo :=
  {| Table.idCargo := 1; Table.nomeCargo := "Analista" |}.

Definition ana : Table.Funcionario :=
  {| Table.idFuncionario := 1; Table.nomeFuncionario := "Ana";
     Table.email := "ana@x.com"; Table.usuario := "ana1";
     Table.senha := "$secret"; Table.Cargo_idCargo := 1 |}.

(** One role, one employee. *)
Definition w0 : World :=
  {| funcionario := [ana]; cargo := [analista]; AUTO_INCREMENT := 2;
     heap := []; salts := 0; log := [] |}.

(** One role, no employee. *)
Definition vazio : World :=
  {| funcionario := []; cargo := [analista]; AUTO_INCREMENT := 1;
     heap := []; salts := 0; log := [] |}.

Definition bia : Json.Funcionario :=
  {| Json.nomeFuncionario := "Bia"; Json.email := "bia@x.com";
     Json.senha := "segredo"; Json.usuario := "bia1";
     Json.cargo := {| Json.idCargo := 1 |} |}.

(** The request that would create [ana]. *)
Definition ana_json : Json.Funcionario :=
  {| Json.nomeFuncionario := "Ana"; Json.email := "ana@x.com";
     Json.senha := "secret"; Json.usuario := "ana1";
     Json.cargo := {| Json.idCargo := 1 |} |}.

(** A request for the email of [ana] that refers to a role that is not
    stored. *)
Definition ana_sem_cargo : Json.Funcionario :=
  {| Json.nomeFuncionario := "Ana Souza"; Json.email := "ana@x.com";
     Json.senha := "outra"; Json.usuario := "ana2";
     Json.cargo := {| Json.idCargo := 99 |} |}.

(** A request for the email of [ana] with a stored role. *)
Definition ana_de_novo : Json.Funcionario :=
  {| Json.nomeFuncionario := "Ana Souza"; Json.email := "ana@x.com";
     Json.senha := "outra"; Json.usuario := "ana2";
     Json.cargo := {| Json.idCargo := 1 |} |}.

(** The body of an update of [ana] that gives her a new password, and one
    that leaves the password out. *)
Definition ana_nova_senha : JS.value :=
  JS.Obj [("funcionario",
           JS.Obj [("nomeFuncionario", JS.Str "Ana"); ("email", JS.Str "ana@x.com");
                   ("usuario", JS.Str "ana1"); ("senha", JS.Str "nova");
                   ("cargo", JS.Obj [("idCargo", JS.Num (JS.Int 1))])])].

Definition ana_sem_senha : JS.value :=
  JS.Obj [("funcionario",
           JS.Obj [("nomeFuncionario", JS.Str "Ana Souza"); ("email", JS.Str "ana@y.com");
                   ("usuario", JS.Str "ana1");
                   ("cargo", JS.Obj [("idCargo", JS.Num (JS.Int 1))])])].

(** The credentials of [ana], right and wrong, and those of nobody. *)
Definition ana_login : JS.value :=
  JS.Obj [("email", JS.Str "ana@x.com"); ("senha", JS.Str "secret")].

Definition ana_senha_errada : JS.value :=
  JS.Obj [("email", JS.Str "ana@x.com"); ("senha", JS.Str "errada")].

Definition ninguem : JS.value :=
  JS.Obj [("email", JS.Str "ninguem@x.com"); ("senha", JS.Str "secret")].

End Exemplo.

(** ** What a pattern matches *)

(** The lists of kinds a pattern stands for. *)
Inductive Matches : JS.regex → list JS.kind → Prop :=
| Matches_Eps : Matches JS.Eps []
| Matches_Sym (p : JS.kind → bool) (k : JS.kind) :
    p k = true → Matches (JS.Sym p) [k]
| Matches_Cat (r1 r2 : JS.regex) (s1 s2 : list JS.kind) :
    Matches r1 s1 → Matches r2 s2 → Matches (JS.Cat r1 r2) (s1 ++ s2)
| Matches_Alt_l (r1 r2 : JS.regex) (s : list JS.kind) :
    Matches r1 s → Matches (JS.Alt r1 r2) s
| Matches_Alt_r (r1 r2 : JS.regex) (s : list JS.kind) :
    Matches r2 s → Matches (JS.Alt r1 r2) s
| Matches_Star_nil (r : JS.regex) : Matches (JS.Star r) []
| Matches_Star_app (r : JS.regex) (s1 s2 : list JS.kind) :
    Matches r s1 → Matches (JS.Star r) s2 → Matches (JS.Star r) (s1 ++ s2).

(** The kinds of the units of a string. *)
Definition kinds (s : string) : list JS.kind := List.map fst (JS.units s).

(** A list of kinds of the shape of an email: a part without white space or
    [@], an [@], and two such parts around a dot, none of them empty. *)
Definition email_shaped (ks : list JS.kind) : Prop :=
  ∃ l d t,
    ks = (l ++ JS.At :: d ++ JS.Dot :: t)%list
    ∧ l ≠ [] ∧ d ≠ [] ∧ t ≠ []
    ∧ Forall (λ k, k ≠ JS.White ∧ k ≠ JS.At) (l ++ d ++ t).

(** A request whose body holds one [funcionario]. *)
Definition request_of (funcionario : JS.value) : FuncionarioMiddleware.Request :=
  {| FuncionarioMiddleware.body := JS.Obj [("funcionario", funcionario)];
     FuncionarioMiddleware.params := JS.Obj [] |}.

(** * Properties *)

(** ** Lists, strings and the heap *)

Lemma lookup_new {A : Type} (h : list A) (o : A) :
  (h ++ [o])%list !! length h = Some o.
Proof. by apply list_lookup_middle. Qed.

Lemma insert_new {A : Type} (h : list A) (o o' : A) :
  <[length h := o']> (h ++ [o])%list = (h ++ [o'])%list.
Proof. rewrite insert_app_r_alt by lia. by rewrite Nat.sub_diag. Qed.

Lemma filter_nonempty {A : Type} (p : A → bool) (l : list A) :
  (0 <? length (List.filter p l))%nat = true ↔ ∃ x, In x l ∧ p x = true.
Proof.
  induction l as [|a l IH]; simpl.
  - split; [discriminate | intros (x & [] & _)].
  - destruct (p a) eqn:Ha; simpl.
    + split; [intros _; exists a; auto | reflexivity].
    + rewrite IH. split; intros (x & Hx & Hp); exists x.
      * auto.
      * destruct Hx as [<- | Hx]; [congruence | auto].
Qed.

Lemma filter_empty {A : Type} (p : A → bool) (l : list A) :
  (0 <? length (List.filter p l))%nat = false ↔ ∀ x, In x l → p x = false.
Proof.
  rewrite <- Bool.not_true_iff_false, filter_nonempty. split.
  - intros Hn x Hx. destruct (p x) eqn:Hp; [|reflexivity].
    exfalso. apply Hn. eauto.
  - intros Hall (x & Hx & Hp). rewrite (Hall x Hx) in Hp. discriminate.
Qed.

Lemma head_filter_None {A : Type} (p : A → bool) (l : list A) :
  head (List.filter p l) = None ↔ ∀ x, In x l → p x = false.
Proof.
  rewrite <- filter_empty.
  destruct (List.filter p l); cbn; split; intros Hx; done.
Qed.

Lemma filter_none {A : Type} (p : A → bool) (l : list A) :
  (∀ x, In x l → p x = false) → List.filter (λ x, negb (p x)) l = l.
Proof.
  induction l as [|a l IH]; simpl; intros Hall; [reflexivity|].
  rewrite (Hall a) by auto. simpl. f_equal. apply IH. auto.
Qed.

(** ** Equality of worlds and of objects *)

(** Worlds and objects are equal when their fields are. *)
Lemma World_ext (a b : World) :
  funcionario a = funcionario b → cargo a = cargo b →
  AUTO_INCREMENT a = AUTO_INCREMENT b → heap a = heap b →
  salts a = salts b → log a = log b → a = b.
Proof. destruct a, b. cbn. by intros -> -> -> -> -> ->. Qed.

Lemma Funcionario_ext (a b : Model.Funcionario) :
  Model.idFuncionario a = Model.idFuncionario b →
  Model.nomeFuncionario a = Model.nomeFuncionario b →
  Model.email a = Model.email b → Model.usuario a = Model.usuario b →
  Model.senha a = Model.senha b → Model.cargo a = Model.cargo b → a = b.
Proof. destruct a, b. cbn. by intros -> -> -> -> -> ->. Qed.

(** Two runs that end alike: the same answer, and worlds whose fields agree
    once the log is read as one list. *)
Ltac world_eq :=
  f_equal; apply World_ext; cbn;
  repeat match goal with
         | |- context [((?l ++ ?m) ++ ?n)%list] => rewrite <- (app_assoc l m n)
         end;
  try reflexivity;
  do 2 f_equal; apply Funcionario_ext; reflexivity.

(** ** The server and the texts *)

Section Statements.
Context {DB : MysqlDatabase}.

(** The texts of several lines are refused, whatever their parameters. *)
Lemma run_INSERT (params : list JS.value) (w : World) :
  run (INSERT_INTO_funcionario params) w
  = (inl (syntax_error (INSERT_INTO_funcionario params)), w).
Proof. reflexivity. Qed.

Lemma run_UPDATE_SET_senha (params : list JS.value) (w : World) :
  run (UPDATE_funcionario_SET_senha params) w
  = (inl (syntax_error (UPDATE_funcionario_SET_senha params)), w).
Proof. reflexivity. Qed.

Lemma run_UPDATE (params : list JS.value) (w : World) :
  run (UPDATE_funcionario params) w
  = (inl (syntax_error (UPDATE_funcionario params)), w).
Proof. reflexivity. Qed.


Lemma run_SELECT_JOIN_WHERE_email (email : JS.value) (w : World) :
  run (SELECT_funcionario_JOIN_cargo_WHERE_email email) w
  = (inl (syntax_error (SELECT_funcionario_JOIN_cargo_WHERE_email email)), w).
Proof. reflexivity. Qed.

(** The texts in one line are parsed. *)
Lemma run_DELETE (id : JS.value) (w : World) :
  run (DELETE_FROM_funcionario id) w
  = let hit := λ row, sql_eqb (SqlInt (Table.idFuncionario row)) id in
    (inr {| insertId := 0;
            affectedRows := Z.of_nat (length (List.filter hit (funcionario w))) |},
     with_funcionario (List.filter (λ row, negb (hit row)) (funcionario w)) w).
Proof. reflexivity. Qed.

Lemma run_SELECT_WHERE (field : string) (value : JS.value) (w : World) :
  run (SELECT_funcionario_WHERE field value) w
  = match column field with
    | Some read =>
        (inr (List.filter (λ row, sql_eqb (read row) value) (funcionario w)), w)
    | None =>
        (inl (Error ("Unknown column '" ++ field ++ "' in 'where clause'")), w)
    end.
Proof. reflexivity. Qed.

Lemma run_SELECT_cargo (id : Z) (w : World) :
  run (SELECT_cargo_WHERE_idCargo id) w
  = (inr (List.filter (λ c, Table.idCargo c =? id) (cargo w)), w).
Proof. reflexivity. Qed.



End Statements.

(** ** C6: delete *)

Section Delete.
Context {DB : MysqlDatabase}.

(** [deleteFuncionario] step by step. *)
Lemma deleteFuncionario_run (idFuncionario : Z) (w : World) :
  FuncionarioService.deleteFuncionario idFuncionario w
  = let hit := λ row, Table.idFuncionario row =? idFuncionario in
    (inr (0 <? Z.of_nat (length (List.filter hit (funcionario w)))),
     {| funcionario := List.filter (λ row, negb (hit row)) (funcionario w);
        cargo := cargo w;
        AUTO_INCREMENT := AUTO_INCREMENT w;
        heap := heap w
                ++ [Model.set_idFuncionario (JS.Num (JS.Int idFuncionario))
                      Model.new_Funcionario];
        salts := salts w;
        log := log w
               ++ [Execute (DELETE_FROM_funcionario
                              (JS.Num (JS.Int idFuncionario)))] |}).
Proof.
  destruct w as [fs cs ai h n lg].
  unfold FuncionarioService.deleteFuncionario, FuncionarioDAO.delete.
  unfold bind, new_Funcionario, assign, deref, execute. cbn.
  rewrite lookup_new, insert_new. cbn. rewrite lookup_new. cbn.
  rewrite run_DELETE. reflexivity.
Qed.

(** C6. [deleteFuncionario] never raises an error: it answers [false] for an
    identifier that no stored employee has (and then leaves the table as it
    was), and [true] exactly when a row was removed. *)
Theorem deleteFuncionario_answers_whether_removed (idFuncionario : Z) (w : World) :
  ∃ b w',
    FuncionarioService.deleteFuncionario idFuncionario w = (inr b, w')
    ∧ funcionario w' =
        List.filter (λ f, negb (Table.idFuncionario f =? idFuncionario)) (funcionario w)
    ∧ (b = true ↔ ∃ f, In f (funcionario w) ∧ Table.idFuncionario f = idFuncionario)
    ∧ (b = true ↔ (length (funcionario w') < length (funcionario w))%nat)
    ∧ ((∀ f, In f (funcionario w) → Table.idFuncionario f ≠ idFuncionario)
       → b = false ∧ funcionario w' = funcionario w).
Proof.
  rewrite deleteFuncionario_run. cbv zeta.
  eexists _, _. split; [reflexivity|]. cbn.
  set (fs := funcionario w).
  set (hit := λ row, Table.idFuncionario row =? idFuncionario).
  assert (Hpos : (0 <? Z.of_nat (length (List.filter hit fs))) = true
                 ↔ ∃ x, In x fs ∧ hit x = true).
  { rewrite <- filter_nonempty, Z.ltb_lt, Nat.ltb_lt.
    generalize (length (List.filter hit fs)). intros k. lia. }
  split; [reflexivity|]. split; [|split].
  - rewrite Hpos. split; intros (f & Hf & Hid); exists f; split; auto.
    + by apply Z.eqb_eq.
    + by apply Z.eqb_eq.
  - pose proof (filter_length hit fs) as Hlen. subst hit. cbv beta in Hlen.
    rewrite Z.ltb_lt. lia.
  - intros Hnone.
    assert (Hall : ∀ x, In x fs → hit x = false).
    { intros x Hx. apply Z.eqb_neq. auto. }
    split.
    + apply Bool.not_true_iff_false. rewrite Hpos.
      intros (x & Hx & Hp). rewrite (Hall x Hx) in Hp. discriminate.
    + by apply filter_none.
Qed.

End Delete.

(** ** C7: the allow-list of [findByField] *)



Lemma is_undefined_true (v : JS.value) : is_undefined v = true ↔ v = JS.undefined.
Proof. destruct v; cbn; split; congruence. Qed.

Section FindByField.
Context {DB : MysqlDatabase}.

(** [findByField] step by step. *)
Lemma findByField_run (field : string) (value : JS.value) (w : World) :
  FuncionarioDAO.findByField field value w
  = if negb (FuncionarioDAO.includes FuncionarioDAO.allowedFields field)
    then (inl (Error ("Campo inválido para busca: " ++ field)), w)
    else if is_undefined value
    then (inl (TypeError "Bind parameters must not contain undefined. To pass SQL NULL specify JS null"), w)
    else
      match column field with
      | Some read =>
          (inr (List.filter (λ row, sql_eqb (read row) value) (funcionario w)),
           logged (Execute (SELECT_funcionario_WHERE field value)) w)
      | None =>
          (inl (Error ("Unknown column '" ++ field ++ "' in 'where clause'")),
           logged (Execute (SELECT_funcionario_WHERE field value)) w)
      end.
Proof.
  unfold FuncionarioDAO.findByField.
  destruct (negb _); [reflexivity|].
  unfold bind, execute. cbn [params_of existsb orb].
  destruct (is_undefined value); [reflexivity|]. cbn.
  rewrite run_SELECT_WHERE. cbn. by destruct (column field).
Qed.


End FindByField.

(** ** C8: the shape check of a create request *)

Lemma blank_absent (v : JS.value) : JS.blank v = true ↔ absent v.
Proof.
  unfold absent. destruct v as [| |b|n|s|l|l]; cbn;
    try (split; [discriminate | intros [H|[H|H]]; discriminate]);
    try (split; auto; fail).
  rewrite String.eqb_eq. split.
  - intros ->. auto.
  - intros [H|[H|H]]; congruence.
Qed.

Lemma get_truthy (v : JS.value) (key : string) :
  JS.truthy v = true → ∃ x, JS.get v key = inr x.
Proof. destruct v; cbn; try discriminate; eauto. Qed.

(** The loop over the required fields stops at the first one that is absent
    and names it. *)
Lemma for_campos_first (funcionario : JS.value) (campos : list string) :
  JS.truthy funcionario = true →
  (∃ campo x, In campo campos ∧ JS.get funcionario campo = inr x ∧ absent x) →
  ∃ antes primeiro depois x,
    campos = (antes ++ primeiro :: depois)%list
    ∧ (∀ c, In c antes → ∃ y, JS.get funcionario c = inr y ∧ ¬ absent y)
    ∧ JS.get funcionario primeiro = inr x ∧ absent x
    ∧ FuncionarioMiddleware.for_campos funcionario campos
      = Some (FuncionarioMiddleware.next
                (Some (FuncionarioMiddleware.validationError
                         (FuncionarioMiddleware.obrigatorio primeiro)))).
Proof.
  intros Htruthy. induction campos as [|c campos IH].
  - intros (campo & x & [] & _).
  - intros (campo & x & Hin & Hget & Habs).
    destruct (get_truthy funcionario c Htruthy) as [y Hy].
    destruct (JS.blank y) eqn:Hblank.
    + exists [], c, campos, y. cbn. rewrite Hy, Hblank.
      repeat split; try done. by apply blank_absent.
    + destruct IH as (antes & primeiro & depois & x' & -> & Hantes & Hp & Hx' & Hrun).
      { destruct Hin as [-> | Hin]; [|eauto].
        rewrite Hy in Hget. injection Hget as ->.
        apply blank_absent in Habs. congruence. }
      exists (c :: antes), primeiro, depois, x'. cbn. rewrite Hy, Hblank.
      repeat split; try done.
      intros c' [<- | Hc']; [|auto].
      exists y. split; [done|]. rewrite <- blank_absent. congruence.
Qed.


(** The loop either runs to its end, every required field being there, or
    stops with the validation error of one of them. *)
Lemma for_campos_cases (funcionario : JS.value) (campos : list string) :
  JS.truthy funcionario = true →
  (FuncionarioMiddleware.for_campos funcionario campos = None
   ∧ ∀ c, In c campos → ∃ y, JS.get funcionario c = inr y ∧ JS.blank y = false)
  ∨ (∃ c, FuncionarioMiddleware.for_campos funcionario campos
          = Some (FuncionarioMiddleware.next
                    (Some (FuncionarioMiddleware.validationError
                             (FuncionarioMiddleware.obrigatorio c))))).
Proof.
  intros Htruthy. induction campos as [|c campos IH]; cbn.
  - left. split; [done | intros c []].
  - destruct (get_truthy funcionario c Htruthy) as [y Hy]. rewrite Hy.
    destruct (JS.blank y) eqn:Hblank; [right; eauto|].
    destruct IH as [[Hnone Hall] | Hsome]; [left | by right].
    split; [done|]. intros c' [<- | Hc']; eauto.
Qed.

Lemma for_campos_None (funcionario : JS.value) (campos : list string) :
  (∀ c, In c campos → ∃ y, JS.get funcionario c = inr y ∧ JS.blank y = false) →
  FuncionarioMiddleware.for_campos funcionario campos = None.
Proof.
  induction campos as [|c campos IH]; cbn; [done|]. intros Hall.
  destruct (Hall c) as (y & -> & ->); [by left|]. apply IH. auto.
Qed.

(** The two ways the shape check ends. *)
Lemma validateCreateBody_cases (request : FuncionarioMiddleware.Request) :
  (∃ m, FuncionarioMiddleware.validateCreateBody request
        = FuncionarioMiddleware.next (Some (FuncionarioMiddleware.validationError m)))
  ∨ (FuncionarioMiddleware.validateCreateBody request = FuncionarioMiddleware.next None
     ∧ ∃ bprops props cprops idCargo,
         FuncionarioMiddleware.body request = JS.Obj bprops
         ∧ JS.own bprops "funcionario" = JS.Obj props
         ∧ (∀ c, In c FuncionarioMiddleware.camposObrigatorios →
                 ¬ absent (JS.own props c))
         ∧ JS.own props "cargo" = JS.Obj cprops
         ∧ JS.own cprops "idCargo" = JS.Num (JS.Int idCargo)
         ∧ 0 < idCargo).
Proof.
  unfold FuncionarioMiddleware.validateCreateBody.
  destruct (JS.truthy (FuncionarioMiddleware.body request)) eqn:Hb; cbn [negb];
    [|left; eauto].
  destruct (FuncionarioMiddleware.body request) as [| |b|n|s|l|bprops] eqn:Hbody;
    try discriminate; cbn [JS.get JS.truthy negb]; try (left; eauto; fail).
  destruct (JS.truthy (JS.own bprops "funcionario")) eqn:Hf; cbn [negb];
    [|left; eauto].
  destruct (for_campos_cases _ FuncionarioMiddleware.camposObrigatorios Hf)
    as [[-> Hall] | [c ->]]; [|left; eauto].
  destruct (JS.own bprops "funcionario") as [| |b|n|s|l|props] eqn:Hfunc;
    try discriminate;
    try (destruct (Hall "cargo") as (y & Hy & Hblank); [cbn; tauto|];
         cbn in Hy; injection Hy as <-; discriminate).
  cbn.
  destruct (JS.own props "cargo") as [| |b|n|s|l|cprops] eqn:Hcargo; cbn;
    try (left; eauto; fail).
  destruct (JS.own cprops "idCargo") as [| |b|[z| | |neg]|s|l|l] eqn:HidCargo; cbn;
    try (left; eauto; fail).
  destruct (z <=? 0) eqn:Hz; [left; eauto|].
  right. split; [done|]. exists bprops, props, cprops, z.
  repeat split; try done.
  - intros c Hc. destruct (Hall c Hc) as (y & Hy & Hblank).
    cbn in Hy. injection Hy as <-. rewrite <- blank_absent. congruence.
  - by apply Z.leb_gt.
Qed.

(** C8. The shape check fails with the 400 validation error that names
    [funcionario] when the container is missing, and with the one that names
    the first of [nomeFuncionario], [email], [senha], [usuario] and [cargo],
    in that order, that is absent, null or the empty string when there is
    one; it passes exactly when the container is an object whose five
    required fields are all there and whose [cargo] is an object with a
    positive integer [idCargo]; it never throws.  Whenever it fails it hands
    its error to [next]: the chain of the route, as the spec has it, then
    gives the error to the error handler without calling the controller,
    hence without calling the service. *)
Theorem validateCreateBody_rejects (request : FuncionarioMiddleware.Request) :
  let body := FuncionarioMiddleware.body request in
  let required := ["nomeFuncionario"; "email"; "senha"; "usuario"; "cargo"] in
  let failed m :=
    FuncionarioMiddleware.validateCreateBody request
    = FuncionarioMiddleware.next (Some (ErrorResponse 400 "Erro na validação de dados" m)) in
  ((JS.truthy body = false
    ∨ ∃ v, JS.get body "funcionario" = inr v ∧ JS.truthy v = false) →
   failed "O campo 'funcionario' é obrigatório!")
  ∧ (∀ funcionario campo x,
       JS.truthy body = true →
       JS.get body "funcionario" = inr funcionario →
       JS.truthy funcionario = true →
       In campo required →
       JS.get funcionario campo = inr x → absent x →
       ∃ antes primeiro depois y,
         required = (antes ++ primeiro :: depois)%list
         ∧ (∀ c, In c antes → ∃ z, JS.get funcionario c = inr z ∧ ¬ absent z)
         ∧ JS.get funcionario primeiro = inr y ∧ absent y
         ∧ failed ("O campo '" ++ primeiro ++ "' é obrigatório!"))
  ∧ (FuncionarioMiddleware.validateCreateBody request = FuncionarioMiddleware.next None
     ↔ ∃ bprops props cprops idCargo,
         body = JS.Obj bprops
         ∧ JS.own bprops "funcionario" = JS.Obj props
         ∧ (∀ c, In c required → ¬ absent (JS.own props c))
         ∧ JS.own props "cargo" = JS.Obj cprops
         ∧ JS.own cprops "idCargo" = JS.Num (JS.Int idCargo)
         ∧ 0 < idCargo)
  ∧ (∀ e, FuncionarioMiddleware.validateCreateBody request
          ≠ FuncionarioMiddleware.throws e)
  ∧ (∀ e, FuncionarioMiddleware.validateCreateBody request
          = FuncionarioMiddleware.next (Some e) →
          (∃ m, e = ErrorResponse 400 "Erro na validação de dados" m)
          ∧ ∀ (R : Type) (controller : FuncionarioMiddleware.Request → R)
              (on_error : exn → R),
              FuncionarioMiddleware.dispatch
                [FuncionarioMiddleware.validateCreateBody]
                controller on_error request
              = on_error e).
Proof.
  intros body required failed. subst failed required body. cbv beta.
  change ["nomeFuncionario"; "email"; "senha"; "usuario"; "cargo"]
    with FuncionarioMiddleware.camposObrigatorios.
  split; [|split; [|split; [|split]]].
  - unfold FuncionarioMiddleware.validateCreateBody.
    intros [Hb | (v & Hget & Hv)].
    + by rewrite Hb.
    + destruct (JS.truthy (FuncionarioMiddleware.body request)); [|done].
      cbn [negb]. by rewrite Hget, Hv.
  - unfold FuncionarioMiddleware.validateCreateBody.
    intros funcionario campo x Hb Hget Hf Hin Hx Habs.
    rewrite Hb, Hget, Hf. cbn [negb].
    destruct (for_campos_first funcionario FuncionarioMiddleware.camposObrigatorios Hf)
      as (antes & primeiro & depois & y & Hsplit & Hantes & Hp & Hy & Hrun);
      [by eauto|].
    exists antes, primeiro, depois, y. rewrite Hrun. done.
  - split.
    + intros Hok.
      destruct (validateCreateBody_cases request) as [[m Hm] | [_ Hshape]];
        [congruence | exact Hshape].
    + intros (bprops & props & cprops & idCargo & Hbody & Hfunc & Hall & Hcargo & Hid & Hpos).
      unfold FuncionarioMiddleware.validateCreateBody. rewrite Hbody.
      cbn [JS.truthy JS.get negb]. rewrite Hfunc. cbn [JS.truthy JS.get negb].
      rewrite for_campos_None.
      * cbn. rewrite Hcargo. cbn. rewrite Hid. cbn.
        by apply Z.leb_gt in Hpos as ->.
      * intros c Hc. exists (JS.own props c). split; [done|].
        apply Bool.not_true_iff_false. rewrite blank_absent. auto.
  - intros e He.
    destruct (validateCreateBody_cases request) as [[m Hm] | [Hok _]]; congruence.
  - intros e He.
    assert (Hm : ∃ m, e = ErrorResponse 400 "Erro na validação de dados" m).
    { destruct (validateCreateBody_cases request) as [[m Hm] | [Hok _]];
        [|congruence].
      exists m. rewrite Hm in He. by injection He as <-. }
    split; [exact Hm|]. intros R controller on_error. cbn. by rewrite He.
Qed.

(** ** From the look-ups to the tables *)

Lemma role_exists_head (idCargo : Z) (w : World) :
  is_Some_bool (head (List.filter (λ c, Table.idCargo c =? idCargo) (cargo w))) = true
  ↔ role_exists idCargo w.
Proof.
  unfold role_exists. split.
  - destruct (head _) as [c|] eqn:Hhead; [intros _ | discriminate].
    assert (Hin : In c (List.filter (λ c, Table.idCargo c =? idCargo) (cargo w))).
    { destruct (List.filter _ _); [discriminate|]. injection Hhead as ->. by left. }
    apply filter_In in Hin as [Hin Hid]. exists c. split; [done | by apply Z.eqb_eq].
  - intros (c & Hin & Hid).
    destruct (head _) eqn:Hhead; [done|].
    apply head_filter_None with (x := c) in Hhead; [|done].
    apply Z.eqb_neq in Hhead. contradiction.
Qed.

Lemma email_taken_filter (email : string) (w : World) :
  (0 <? length (List.filter (λ f, String.eqb (Table.email f) email) (funcionario w)))%nat
  = true ↔ email_taken email w.
Proof.
  rewrite filter_nonempty. unfold email_taken.
  split; intros (f & Hin & Heq); exists f; split; try done; by apply String.eqb_eq.
Qed.

Lemma usuario_taken_filter (usuario : string) (w : World) :
  (0 <? length (List.filter (λ f, String.eqb (Table.usuario f) usuario) (funcionario w)))%nat
  = true ↔ usuario_taken usuario w.
Proof.
  rewrite filter_nonempty. unfold usuario_taken.
  split; intros (f & Hin & Heq); exists f; split; try done; by apply String.eqb_eq.
Qed.

Lemma no_write_refl (w : World) : no_write w w.
Proof. by repeat split. Qed.

Lemma no_write_logged (e : event) (w w' : World) :
  is_write_event e = false → no_write w w' → no_write w (logged e w').
Proof.
  intros He (Hf & Hc & Ha & Hl). repeat split; cbn; try done.
  rewrite List.filter_app. cbn. rewrite He, Hl. apply app_nil_r.
Qed.

Lemma no_write_with_heap (h : list Model.Funcionario) (w w' : World) :
  no_write w w' → no_write w (with_heap h w').
Proof. intros (Hf & Hc & Ha & Hl). by repeat split. Qed.

(** ** The text of an identifier *)

Lemma string_length_app (s t : string) :
  String.length (s ++ t) = (String.length s + String.length t)%nat.
Proof. induction s as [|a s IH]; simpl; [done | by f_equal]. Qed.

Lemma string_app_inv_tail (s1 s2 t : string) : s1 ++ t = s2 ++ t → s1 = s2.
Proof.
  revert s2. induction s1 as [|a s1 IH]; intros [|b s2] Heq.
  - done.
  - apply (f_equal String.length) in Heq.
    rewrite !string_length_app in Heq. simpl in Heq. lia.
  - apply (f_equal String.length) in Heq.
    rewrite !string_length_app in Heq. simpl in Heq. lia.
  - simpl in Heq. injection Heq as -> Heq. f_equal. by apply IH.
Qed.

Lemma decimal_inj (a b : Z) : decimal a = decimal b → a = b.
Proof.
  unfold decimal. intros Heq.
  assert (Hnil : ∀ z d, Z.to_int z = d →
                        d ≠ Decimal.Pos Decimal.Nil ∧ d ≠ Decimal.Neg Decimal.Nil).
  { intros z d Hd. pose proof (DecimalZ.of_to z) as Hz. rewrite Hd in Hz.
    split; intros ->; cbn in Hz; subst z; discriminate. }
  destruct (Hnil a _ eq_refl) as [Ha1 Ha2]. destruct (Hnil b _ eq_refl) as [Hb1 Hb2].
  apply (f_equal NilZero.int_of_string) in Heq.
  rewrite !NilZero.isi in Heq by done. injection Heq as Heq.
  rewrite <- (DecimalZ.of_to a), <- (DecimalZ.of_to b). by rewrite Heq.
Qed.

Lemma Exemplo_tells_apart : tells_apart Exemplo.numeros.
Proof. intros a b. apply decimal_inj. Qed.

Lemma cargoNaoExiste_inj {N : JS.NumberText} (a b : Z) :
  tells_apart N →
  FuncionarioService.cargoNaoExiste a = FuncionarioService.cargoNaoExiste b → a = b.
Proof.
  unfold FuncionarioService.cargoNaoExiste. intros Htells Heq. injection Heq as Heq.
  apply Htells. by eapply string_app_inv_tail, String.app_inj.
Qed.

(** ** The runs of [createFuncionario] *)

Section Create.
Context {DB : MysqlDatabase} {N : JS.NumberText} {B : Bcrypt}.

(** [createFuncionario] step by step: the three look-ups in their order,
    then the assembly of the object, the hash and the insertion, which the
    server refuses. *)
Lemma createFuncionario_run (j : Json.Funcionario) (w : World) :
  FuncionarioService.createFuncionario j w =
  let idCargo := Json.idCargo (Json.cargo j) in
  let w1 := logged (Execute (SELECT_cargo_WHERE_idCargo idCargo)) w in
  let w2 := logged (Execute (SELECT_funcionario_WHERE "email" (JS.Str (Json.email j)))) w1 in
  let w3 := logged (Execute (SELECT_funcionario_WHERE "usuario" (JS.Str (Json.usuario j)))) w2 in
  if negb (is_Some_bool
             (head (List.filter (λ c, Table.idCargo c =? idCargo) (cargo w))))
  then (inl (FuncionarioService.cargoNaoExiste idCargo), w1)
  else if (0 <? length (List.filter
                          (λ f, String.eqb (Table.email f) (Json.email j))
                          (funcionario w)))%nat
  then (inl (FuncionarioService.emailDuplicado (Json.email j)), w2)
  else if (0 <? length (List.filter
                          (λ f, String.eqb (Table.usuario f) (Json.usuario j))
                          (funcionario w)))%nat
  then (inl (FuncionarioService.usuarioDuplicado (Json.usuario j)), w3)
  else
    let salt := genSalt 12 (salts w) in
    let hash := hashSync (Json.senha j) salt in
    (inl (syntax_error (INSERT_INTO_funcionario (create_params j hash))),
     {| funcionario := funcionario w;
        cargo := cargo w;
        AUTO_INCREMENT := AUTO_INCREMENT w;
        heap := heap w ++ [assembled j (JS.Str hash)];
        salts := S (salts w);
        log := log w ++ lookups j
               ++ [Hash (Json.senha j) salt;
                   Execute (INSERT_INTO_funcionario (create_params j hash))] |}).
Proof.
  destruct w as [fs cs ai h n lg].
  unfold FuncionarioService.createFuncionario, CargoDAO.findById,
    FuncionarioDAO.findByField, FuncionarioDAO.create, cargo_idCargo.
  unfold bind, execute, new_Funcionario, assign, deref, ret, throw.
  cbn -[Nat.ltb run]. rewrite run_SELECT_cargo. cbn -[Nat.ltb run].
  destruct (head (List.filter _ cs)) eqn:Hcargo; cbn -[Nat.ltb run]; [|reflexivity].
  rewrite run_SELECT_WHERE. cbn -[Nat.ltb run].
  destruct (0 <? length (List.filter
                          (λ f, String.eqb (Table.email f) (Json.email j)) fs))%nat
    eqn:Hemail; cbn -[Nat.ltb run]; [reflexivity|].
  rewrite run_SELECT_WHERE. cbn -[Nat.ltb run].
  destruct (0 <? length (List.filter
                          (λ f, String.eqb (Table.usuario f) (Json.usuario j)) fs))%nat
    eqn:Husuario; cbn -[Nat.ltb run]; [reflexivity|].
  repeat (rewrite ?lookup_new, ?insert_new; cbn -[Nat.ltb run]).
  rewrite run_INSERT. cbn -[Nat.ltb]. world_eq.
Qed.

End Create.

Section FindById.
Context {DB : MysqlDatabase} {N : JS.NumberText}.

(** [findById] step by step. *)
Lemma findById_run (idFuncionario : Z) (w : World) :
  FuncionarioService.findById idFuncionario w
  = let w' :=
      {| funcionario := funcionario w;
         cargo := cargo w;
         AUTO_INCREMENT := AUTO_INCREMENT w;
         heap := heap w
                 ++ [Model.set_idFuncionario (JS.Num (JS.Int idFuncionario))
                       Model.new_Funcionario];
         salts := salts w;
         log := log w
                ++ [Execute (SELECT_funcionario_WHERE "idFuncionario"
                               (JS.Num (JS.Int idFuncionario)))] |} in
    match head (List.filter (λ row, Table.idFuncionario row =? idFuncionario)
                  (funcionario w)) with
    | None => (inl (FuncionarioService.naoEncontrado idFuncionario), w')
    | Some f => (inr f, w')
    end.
Proof.
  destruct w as [fs cs ai h n lg].
  unfold FuncionarioService.findById, FuncionarioDAO.findById.
  unfold bind, new_Funcionario, assign, deref. cbn -[FuncionarioDAO.findByField].
  rewrite lookup_new, insert_new. cbn -[FuncionarioDAO.findByField].
  rewrite lookup_new. cbn -[FuncionarioDAO.findByField].
  rewrite findByField_run. cbn.
  by destruct (head (List.filter _ fs)).
Qed.

End FindById.

Section CreateChecks.
Context {DB : MysqlDatabase} {N : JS.NumberText} {B : Bcrypt}.

(** C1. [createFuncionario] checks the role first, then the email, then the
    login name, and the first check that fails decides the error: without
    the role it fails with the error whose message carries the role
    identifier, as the language writes it, after the role look-up alone;
    with the role and a stored email it fails with the email error after two
    look-ups; with the role, a free email and a stored login name it fails
    with the login-name error after the three.  In the three cases nothing
    is written and no object is assembled.  As the text of a number tells
    the number, the message of the missing-role error tells the role. *)
Theorem createFuncionario_checks_in_order (j : Json.Funcionario) (w : World) :
  let idCargo := Json.idCargo (Json.cargo j) in
  (¬ role_exists idCargo w →
     ∃ w', FuncionarioService.createFuncionario j w
           = (inl (FuncionarioService.cargoNaoExiste idCargo), w')
           ∧ log w' = (log w ++ take 1 (lookups j))%list
           ∧ no_write w w' ∧ heap w' = heap w)
  ∧ (role_exists idCargo w → email_taken (Json.email j) w →
     ∃ w', FuncionarioService.createFuncionario j w
           = (inl (FuncionarioService.emailDuplicado (Json.email j)), w')
           ∧ log w' = (log w ++ take 2 (lookups j))%list
           ∧ no_write w w' ∧ heap w' = heap w)
  ∧ (role_exists idCargo w → ¬ email_taken (Json.email j) w →
     usuario_taken (Json.usuario j) w →
     ∃ w', FuncionarioService.createFuncionario j w
           = (inl (FuncionarioService.usuarioDuplicado (Json.usuario j)), w')
           ∧ log w' = (log w ++ lookups j)%list
           ∧ no_write w w' ∧ heap w' = heap w)
  ∧ statusCode_of (FuncionarioService.cargoNaoExiste idCargo) = Some 400
  ∧ message_of (FuncionarioService.cargoNaoExiste idCargo)
    = "O Cargo com ID " ++ JS.Number_prototype_toString (JS.Int idCargo)
      ++ " não foi encontrado."
  ∧ (tells_apart N →
     ∀ id', FuncionarioService.cargoNaoExiste id'
            = FuncionarioService.cargoNaoExiste idCargo → id' = idCargo).
Proof.
  intros idCargo. subst idCargo. rewrite createFuncionario_run. cbv zeta.
  split; [|split; [|split; [|split; [done|split; [done|]]]]].
  - intros Hrole. rewrite <- role_exists_head in Hrole.
    apply Bool.not_true_is_false in Hrole. rewrite Hrole. cbn [negb].
    eexists. split; [reflexivity|]. split; [|split]; [| |done].
    + destruct w; cbn. done.
    + by apply no_write_logged, no_write_refl.
  - intros Hrole Hemail. apply role_exists_head in Hrole.
    apply email_taken_filter in Hemail. rewrite Hrole, Hemail. cbn [negb].
    eexists. split; [reflexivity|]. split; [|split]; [| |done].
    + destruct w; cbn. by rewrite <- app_assoc.
    + by repeat apply no_write_logged; try apply no_write_refl.
  - intros Hrole Hemail Husuario. apply role_exists_head in Hrole.
    rewrite <- email_taken_filter in Hemail.
    apply Bool.not_true_is_false in Hemail.
    apply usuario_taken_filter in Husuario.
    rewrite Hrole, Hemail, Husuario. cbn [negb].
    eexists. split; [reflexivity|]. split; [|split]; [| |done].
    + destruct w; cbn. by rewrite <- !app_assoc.
    + by repeat apply no_write_logged; try apply no_write_refl.
  - intros Htells id'. by apply cargoNaoExiste_inj.
Qed.

(** C4, as amended. When the role of the request is stored, a request with a
    stored email fails with the email conflict whatever its other fields
    are, and a request with a stored login name fails with a conflict, which
    is the login-name conflict when its email is stored nowhere; nothing is
    written in either case. *)
Theorem createFuncionario_conflict (j : Json.Funcionario) (w : World) :
  role_exists (Json.idCargo (Json.cargo j)) w →
  (email_taken (Json.email j) w →
     ∃ w', FuncionarioService.createFuncionario j w
           = (inl (FuncionarioService.emailDuplicado (Json.email j)), w')
           ∧ conflict (FuncionarioService.emailDuplicado (Json.email j))
           ∧ no_write w w')
  ∧ (usuario_taken (Json.usuario j) w →
     ∃ e w', FuncionarioService.createFuncionario j w = (inl e, w')
             ∧ conflict e ∧ no_write w w'
             ∧ (¬ email_taken (Json.email j) w →
                e = FuncionarioService.usuarioDuplicado (Json.usuario j))).
Proof.
  intros Hrole. rewrite createFuncionario_run. cbv zeta.
  apply role_exists_head in Hrole. rewrite Hrole. cbn [negb]. split.
  - intros Hemail. apply email_taken_filter in Hemail. rewrite Hemail.
    eexists. split; [reflexivity|]. split; [unfold conflict; eauto|].
    by repeat apply no_write_logged; try apply no_write_refl.
  - intros Husuario. apply usuario_taken_filter in Husuario.
    destruct (0 <? length (List.filter
                             (λ f, String.eqb (Table.email f) (Json.email j))
                             (funcionario w)))%nat eqn:Hemail.
    + eexists _, _. split; [reflexivity|]. split; [unfold conflict; eauto|].
      split; [by repeat apply no_write_logged; try apply no_write_refl|].
      intros Hfree. apply email_taken_filter in Hemail. contradiction.
    + rewrite Husuario.
      eexists _, _. split; [reflexivity|]. split; [unfold conflict; eauto|].
      split; [by repeat apply no_write_logged; try apply no_write_refl|done].
Qed.

(** The outcome of a request that passes the three checks. *)
Lemma createFuncionario_refused (j : Json.Funcionario) (w : World) :
  role_exists (Json.idCargo (Json.cargo j)) w →
  ¬ email_taken (Json.email j) w →
  ¬ usuario_taken (Json.usuario j) w →
  FuncionarioService.createFuncionario j w
  = let salt := genSalt 12 (salts w) in
    let hash := hashSync (Json.senha j) salt in
    (inl (syntax_error (INSERT_INTO_funcionario (create_params j hash))),
     {| funcionario := funcionario w;
        cargo := cargo w;
        AUTO_INCREMENT := AUTO_INCREMENT w;
        heap := heap w ++ [assembled j (JS.Str hash)];
        salts := S (salts w);
        log := log w ++ lookups j
               ++ [Hash (Json.senha j) salt;
                   Execute (INSERT_INTO_funcionario (create_params j hash))] |}).
Proof.
  intros Hrole Hemail Husuario. rewrite createFuncionario_run. cbv zeta.
  apply role_exists_head in Hrole.
  rewrite <- email_taken_filter in Hemail. apply Bool.not_true_is_false in Hemail.
  rewrite <- usuario_taken_filter in Husuario.
  apply Bool.not_true_is_false in Husuario.
  rewrite Hrole, Hemail, Husuario. reflexivity.
Qed.

(** [createFuncionario] never answers, and never touches the tables. *)
Lemma createFuncionario_throws (j : Json.Funcionario) (w : World) :
  ∃ e w', FuncionarioService.createFuncionario j w = (inl e, w')
          ∧ same_tables w w'.
Proof.
  rewrite createFuncionario_run. cbv zeta.
  repeat match goal with
         | |- context [if ?c then _ else _] => destruct c
         end;
    eexists _, _; (split; [reflexivity|]); done.
Qed.

(** C5. The round trip of the claim never starts: no request makes
    [createFuncionario] answer an identifier.  A request that passes the
    three checks gets as far as the insertion, whose text the server
    refuses, and fails with the error of the syntax; whatever the request,
    the tables are left as they were, so [findById] answers after the call
    what it answered before, and no identifier is handed out. *)
Theorem createFuncionario_never_creates (j : Json.Funcionario) (w : World) :
  ∃ e w',
    FuncionarioService.createFuncionario j w = (inl e, w')
    ∧ same_tables w w'
    ∧ (∀ idFuncionario,
         fst (FuncionarioService.findById idFuncionario w')
         = fst (FuncionarioService.findById idFuncionario w))
    ∧ (role_exists (Json.idCargo (Json.cargo j)) w →
       ¬ email_taken (Json.email j) w →
       ¬ usuario_taken (Json.usuario j) w →
       let hash := hashSync (Json.senha j) (genSalt 12 (salts w)) in
       e = syntax_error (INSERT_INTO_funcionario (create_params j hash))
       ∧ refused (SQL (INSERT_INTO_funcionario (create_params j hash))) = true
       ∧ last (log w')
         = Some (Execute (INSERT_INTO_funcionario (create_params j hash)))).
Proof.
  destruct (createFuncionario_throws j w) as (e & w' & Hrun & Hsame).
  exists e, w'. split; [exact Hrun|]. split; [exact Hsame|]. split.
  - intros id. rewrite !findById_run. cbv zeta.
    destruct Hsame as (-> & _ & _).
    by destruct (head (List.filter _ (funcionario w))).
  - intros Hrole Hemail Husuario hash.
    rewrite (createFuncionario_refused j w Hrole Hemail Husuario) in Hrun.
    cbv zeta in Hrun. injection Hrun as <- <-. split; [reflexivity|].
    split; [reflexivity|]. cbn [log]. rewrite last_app. reflexivity.
Qed.


End CreateChecks.

(** A witness of C1: the request of [ana_sem_cargo] on [w0]. *)
Lemma createFuncionario_checks_in_order_witness :
  ¬ role_exists 99 Exemplo.w0
  ∧ ∃ w', @FuncionarioService.createFuncionario Exemplo.mysql Exemplo.numeros
            Exemplo.bcrypt Exemplo.ana_sem_cargo Exemplo.w0
          = (inl (@FuncionarioService.cargoNaoExiste Exemplo.numeros 99), w')
          ∧ no_write Exemplo.w0 w'
          ∧ message_of (@FuncionarioService.cargoNaoExiste Exemplo.numeros 99)
            = "O Cargo com ID 99 não foi encontrado."
          ∧ ∀ id', @FuncionarioService.cargoNaoExiste Exemplo.numeros id'
                   = @FuncionarioService.cargoNaoExiste Exemplo.numeros 99 →
                   id' = 99.
Proof.
  assert (Hrole : ¬ role_exists 99 Exemplo.w0).
  { intros (c & [<- | []] & Hid). vm_compute in Hid. discriminate. }
  split; [exact Hrole|].
  destruct (@createFuncionario_checks_in_order Exemplo.mysql Exemplo.numeros
              Exemplo.bcrypt Exemplo.ana_sem_cargo Exemplo.w0)
    as (Hfirst & _ & _ & _ & Hmessage & Htells).
  destruct (Hfirst Hrole) as (w' & Hrun & _ & Hnw & _).
  exists w'. split; [exact Hrun|]. split; [exact Hnw|].
  split; [exact Hmessage | exact (Htells Exemplo_tells_apart)].
Defined.

(** The claim C4 as it is stated fails: [ana_sem_cargo] asks for the stored
    email of [ana] and for a role that is not stored, and the error is the
    missing-role error, not a conflict. *)
Lemma createFuncionario_same_email_not_conflict :
  email_taken (Json.email Exemplo.ana_sem_cargo) Exemplo.w0
  ∧ fst (@FuncionarioService.createFuncionario Exemplo.mysql Exemplo.numeros
           Exemplo.bcrypt Exemplo.ana_sem_cargo Exemplo.w0)
    = inl (@FuncionarioService.cargoNaoExiste Exemplo.numeros 99)
  ∧ ¬ conflict (@FuncionarioService.cargoNaoExiste Exemplo.numeros 99)
  ∧ ¬ (∀ (j : Json.Funcionario) (w : World),
         email_taken (Json.email j) w →
         ∃ e w', @FuncionarioService.createFuncionario Exemplo.mysql
                   Exemplo.numeros Exemplo.bcrypt j w = (inl e, w')
                 ∧ conflict e).
Proof.
  assert (Htaken : email_taken (Json.email Exemplo.ana_sem_cargo) Exemplo.w0).
  { exists Exemplo.ana. split; [by left | reflexivity]. }
  assert (Hnot : ¬ conflict (@FuncionarioService.cargoNaoExiste Exemplo.numeros 99)).
  { intros (v & [Hv | Hv]); discriminate. }
  repeat split; [exact Htaken | exact Hnot |].
  intros Hall.
  destruct (Hall Exemplo.ana_sem_cargo Exemplo.w0 Htaken) as (e & w' & Hrun & He).
  vm_compute in Hrun. injection Hrun as <- _. exact (Hnot He).
Qed.

(** A witness of C4 as amended: [ana_de_novo] on [w0]. *)
Lemma createFuncionario_conflict_witness :
  role_exists 1 Exemplo.w0
  ∧ email_taken "ana@x.com" Exemplo.w0
  ∧ ∃ w', @FuncionarioService.createFuncionario Exemplo.mysql Exemplo.numeros
            Exemplo.bcrypt Exemplo.ana_de_novo Exemplo.w0
          = (inl (FuncionarioService.emailDuplicado "ana@x.com"), w')
          ∧ no_write Exemplo.w0 w'.
Proof.
  assert (Hrole : role_exists 1 Exemplo.w0).
  { exists Exemplo.analista. split; [by left | reflexivity]. }
  assert (Htaken : email_taken "ana@x.com" Exemplo.w0).
  { exists Exemplo.ana. split; [by left | reflexivity]. }
  split; [exact Hrole|]. split; [exact Htaken|].
  destruct (@createFuncionario_conflict Exemplo.mysql Exemplo.numeros Exemplo.bcrypt
              Exemplo.ana_de_novo Exemplo.w0 Hrole) as [Hemail _].
  destruct (Hemail Htaken) as (w' & Hrun & _ & Hnw). eauto.
Defined.

Lemma Exemplo_one_way : one_way Exemplo.bcrypt.
Proof.
  intros data salt. cbn. intros Heq.
  apply (f_equal String.length) in Heq. rewrite string_length_app in Heq.
  cbn in Heq. lia.
Qed.

(** The failing input of C5 and C9: the request of [bia] on [w0], whose
    role is stored and whose email and login name are free. *)
Lemma Exemplo_bia_passes :
  role_exists (Json.idCargo (Json.cargo Exemplo.bia)) Exemplo.w0
  ∧ ¬ email_taken (Json.email Exemplo.bia) Exemplo.w0
  ∧ ¬ usuario_taken (Json.usuario Exemplo.bia) Exemplo.w0.
Proof.
  split; [|split].
  - exists Exemplo.analista. split; [by left | reflexivity].
  - intros (f & [<- | []] & Heq). discriminate.
  - intros (f & [<- | []] & Heq). discriminate.
Qed.

Lemma createFuncionario_never_creates_witness :
  ∃ w',
    @FuncionarioService.createFuncionario Exemplo.mysql Exemplo.numeros
      Exemplo.bcrypt Exemplo.bia Exemplo.w0
    = (inl (Error "You have an error in your SQL syntax"), w')
    ∧ funcionario w' = funcionario Exemplo.w0
    ∧ fst (@FuncionarioService.findById Exemplo.mysql Exemplo.numeros 2 w')
      = inl (@FuncionarioService.naoEncontrado Exemplo.numeros 2).
Proof.
  destruct (@createFuncionario_never_creates Exemplo.mysql Exemplo.numeros
              Exemplo.bcrypt Exemplo.bia Exemplo.w0)
    as (e & w' & Hrun & Hsame & Hfind & Hrefused).
  destruct Exemplo_bia_passes as (Hrole & Hemail & Husuario).
  destruct (Hrefused Hrole Hemail Husuario) as (-> & _ & _).
  exists w'. split; [exact Hrun|]. split; [exact (proj1 Hsame)|].
  rewrite Hfind. reflexivity.
Defined.


(** ** Computations that keep the tables *)

Lemma same_tables_refl (w : World) : same_tables w w.
Proof. done. Qed.

Lemma same_tables_trans (w1 w2 w3 : World) :
  same_tables w1 w2 → same_tables w2 w3 → same_tables w1 w3.
Proof.
  intros (Hf & Hc & Ha) (Hf' & Hc' & Ha'). unfold same_tables.
  rewrite Hf', Hc', Ha'. done.
Qed.

Lemma keeps_tables_bind {A B : Type} (c : M A) (k : A → M B) :
  keeps_tables c → (∀ a, keeps_tables (k a)) → keeps_tables (bind c k).
Proof.
  intros Hc Hk w. unfold bind. specialize (Hc w).
  destruct (c w) as [[e|a] w']; cbn in *; [done|].
  eapply same_tables_trans; [exact Hc | apply Hk].
Qed.

Lemma always_throws_bind {A B : Type} (c : M A) (k : A → M B) :
  keeps_tables c → (∀ a, always_throws (k a)) → always_throws (bind c k).
Proof.
  intros Hc Hk w. unfold bind. specialize (Hc w).
  destruct (c w) as [[e|a] w'] eqn:Hrun; cbn in *; [eauto|].
  destruct (Hk a w') as (e & w'' & -> & Hsame).
  exists e, w''. split; [done|]. by eapply same_tables_trans.
Qed.

Lemma keeps_tables_ret {A : Type} (a : A) : keeps_tables (ret a).
Proof. intros w. done. Qed.

Lemma keeps_tables_throw {A : Type} (e : exn) : keeps_tables (@throw A e).
Proof. intros w. done. Qed.

Lemma always_throws_throw {A : Type} (e : exn) : always_throws (@throw A e).
Proof. intros w. exists e, w. done. Qed.

Lemma keeps_tables_lift {A : Type} (r : exn + A) : keeps_tables (lift r).
Proof. destruct r; intros w; done. Qed.

Lemma keeps_tables_new_Funcionario : keeps_tables new_Funcionario.
Proof. intros w. done. Qed.

Lemma keeps_tables_deref (r : ref) : keeps_tables (deref r).
Proof. intros w. unfold deref. by destruct (heap w !! r). Qed.

Lemma keeps_tables_assign (r : ref) (f : Model.Funcionario → Model.Funcionario) :
  keeps_tables (assign r f).
Proof. intros w. unfold assign. by destruct (heap w !! r). Qed.

Lemma keeps_tables_cargo_idCargo (o : Model.Funcionario) :
  keeps_tables (cargo_idCargo o).
Proof. intros w. unfold cargo_idCargo. by destruct (Model.cargo o). Qed.

Lemma keeps_tables_bcrypt_hash {B : Bcrypt} (data : JS.value) (rounds : Z) :
  keeps_tables (bcrypt_hash data rounds).
Proof. intros w. by destruct data. Qed.

Lemma keeps_tables_bcrypt_compare {B : Bcrypt} (data : JS.value) (hash : string) :
  keeps_tables (bcrypt_compare data hash).
Proof. intros w. by destruct data. Qed.

Section Refused.
Context {DB : MysqlDatabase}.

(** A statement whose text is refused makes [execute] throw, whatever the
    tables hold, and leaves them alone. *)
Lemma always_throws_execute {R : Type} (sql : statement R) :
  refused (SQL sql) = true → always_throws (execute sql).
Proof.
  intros Hrefused w. unfold execute.
  destruct (existsb is_undefined (params_of sql)); [by eexists _, _|].
  unfold run. rewrite Hrefused. by eexists _, _.
Qed.

End Refused.

(** ** Login *)

Section Login.
Context {DB : MysqlDatabase} {B : Bcrypt} {J : MeuTokenJWT}.

(** The look-up of [login] is refused. *)
Lemma login_run (r : ref) (o : Model.Funcionario) (w : World) :
  heap w !! r = Some o →
  FuncionarioDAO.login r w
  = if is_undefined (Model.email o)
    then (inl (TypeError "Bind parameters must not contain undefined. To pass SQL NULL specify JS null"), w)
    else (inl (syntax_error
                 (SELECT_funcionario_JOIN_cargo_WHERE_email (Model.email o))),
          logged (Execute (SELECT_funcionario_JOIN_cargo_WHERE_email (Model.email o)))
            w).
Proof.
  intros Hr. unfold FuncionarioDAO.login, bind, deref, execute. rewrite Hr.
  cbn [params_of existsb orb].
  destruct (is_undefined (Model.email o)); [reflexivity|].
  cbn -[run]. by rewrite run_SELECT_JOIN_WHERE_email.
Qed.

(** [loginFuncionario] step by step. *)
Lemma loginFuncionario_get (j : JS.value) (w : World) :
  FuncionarioService.loginFuncionario j w
  = match JS.get j "email" with
    | inl e => (inl e, with_heap (heap w ++ [Model.new_Funcionario]) w)
    | inr email =>
        match JS.get j "senha" with
        | inl e =>
            (inl e,
             with_heap (heap w ++ [Model.set_email email Model.new_Funcionario]) w)
        | inr senha =>
            let o := Model.set_senha senha
                       (Model.set_email email Model.new_Funcionario) in
            let w1 := with_heap (heap w ++ [o]) w in
            if is_undefined email
            then (inl (TypeError "Bind parameters must not contain undefined. To pass SQL NULL specify JS null"), w1)
            else (inl (syntax_error
                         (SELECT_funcionario_JOIN_cargo_WHERE_email email)),
                  logged (Execute (SELECT_funcionario_JOIN_cargo_WHERE_email email))
                    w1)
        end
    end.
Proof.
  destruct w as [fs cs ai h n lg].
  unfold FuncionarioService.loginFuncionario.
  unfold bind, new_Funcionario, assign, lift, ret. cbn -[FuncionarioDAO.login].
  destruct (JS.get j "email") as [e|email]; [reflexivity|].
  cbn -[FuncionarioDAO.login].
  rewrite lookup_new, insert_new. cbn -[FuncionarioDAO.login].
  destruct (JS.get j "senha") as [e|senha]; [reflexivity|].
  cbn -[FuncionarioDAO.login].
  rewrite lookup_new, insert_new. cbn -[FuncionarioDAO.login].
  erewrite login_run; [|cbn; apply lookup_new]. cbn.
  by destruct (is_undefined email).
Qed.

Lemma loginFuncionario_run (props : list (string * JS.value)) (w : World) :
  FuncionarioService.loginFuncionario (JS.Obj props) w
  = let email := JS.own props "email" in
    let o := Model.set_senha (JS.own props "senha")
               (Model.set_email email Model.new_Funcionario) in
    let w1 := with_heap (heap w ++ [o]) w in
    if is_undefined email
    then (inl (TypeError "Bind parameters must not contain undefined. To pass SQL NULL specify JS null"), w1)
    else (inl (syntax_error (SELECT_funcionario_JOIN_cargo_WHERE_email email)),
          logged (Execute (SELECT_funcionario_JOIN_cargo_WHERE_email email)) w1).
Proof. rewrite loginFuncionario_get. reflexivity. Qed.


(** C2. No login fails with the 401 error, because none gets an answer from
    the look-up: its text is refused by the server.  Two logins whose
    credentials carry an email, whatever the emails and the passwords and
    whatever is stored, both fail with one and the same error, so an unknown
    email and a wrong password are not told apart; but the error is the
    plain [Error] of the syntax, with no status, not the unauthorized error,
    and a login with the right password fails with it too.  No hash is
    compared and nothing is written. *)
Theorem login_fails_with_the_syntax_error
    (props1 props2 : list (string * JS.value)) (w1 w2 : World) :
  JS.own props1 "email" ≠ JS.undefined →
  JS.own props2 "email" ≠ JS.undefined →
  ∃ e w1' w2',
    FuncionarioService.loginFuncionario (JS.Obj props1) w1 = (inl e, w1')
    ∧ FuncionarioService.loginFuncionario (JS.Obj props2) w2 = (inl e, w2')
    ∧ e = syntax_error
            (SELECT_funcionario_JOIN_cargo_WHERE_email (JS.own props1 "email"))
    ∧ refused (SQL (SELECT_funcionario_JOIN_cargo_WHERE_email
                      (JS.own props1 "email"))) = true
    ∧ e ≠ FuncionarioService.naoAutorizado
    ∧ statusCode_of e = None
    ∧ same_tables w1 w1' ∧ same_tables w2 w2'
    ∧ no_compare w1 w1' ∧ no_compare w2 w2'.
Proof.
  intros H1 H2. rewrite !loginFuncionario_run. cbv zeta.
  destruct (is_undefined (JS.own props1 "email")) eqn:Hu1;
    [by apply is_undefined_true in Hu1|].
  destruct (is_undefined (JS.own props2 "email")) eqn:Hu2;
    [by apply is_undefined_true in Hu2|].
  eexists _, _, _. split; [reflexivity|]. split; [reflexivity|].
  split; [reflexivity|]. split; [reflexivity|]. split; [discriminate|].
  split; [reflexivity|]. split; [done|]. split; [done|].
  unfold no_compare. cbn. rewrite !List.filter_app. cbn.
  by rewrite !app_nil_r.
Qed.

(** C10. The gateway never answers 'absent', and the login never fails with
    the unauthorized error: the look-up is one statement, the join of the
    employees with their roles on the email, and the server refuses its
    text, so [login] throws the error of the syntax for every object that
    has an email, before any row is counted and without comparing a hash.
    The code after the look-up does what the claim says of it: had the
    look-up answered with no row, or with several, it would answer null
    without comparing. *)
Theorem login_look_up_is_refused (r : ref) (o : Model.Funcionario) (w : World) :
  heap w !! r = Some o →
  Model.email o ≠ JS.undefined →
  FuncionarioDAO.login r w
  = (inl (syntax_error (SELECT_funcionario_JOIN_cargo_WHERE_email (Model.email o))),
     logged (Execute (SELECT_funcionario_JOIN_cargo_WHERE_email (Model.email o))) w)
  ∧ fst (FuncionarioDAO.login r w) ≠ inr None
  ∧ no_compare w (snd (FuncionarioDAO.login r w))
  ∧ (∀ resultado w0,
       length resultado ≠ 1%nat →
       FuncionarioDAO.login_resultado o resultado w0 = (inr None, w0)).
Proof.
  intros Hr Hemail. rewrite (login_run r o w Hr).
  destruct (is_undefined (Model.email o)) eqn:Hu;
    [by apply is_undefined_true in Hu|].
  split; [reflexivity|]. split; [discriminate|]. split.
  - unfold no_compare. cbn. rewrite List.filter_app. cbn. apply app_nil_r.
  - intros [|row [|row' resultado]] w0 Hlen; cbn in *; done.
Qed.

End Login.

(** A witness of C2: nobody's credentials, and those of [ana] with a wrong
    password, on [w0]. *)
Lemma login_fails_with_the_syntax_error_witness :
  ∃ w1' w2',
    @FuncionarioService.loginFuncionario Exemplo.mysql Exemplo.bcrypt Exemplo.jwt
      Exemplo.ninguem Exemplo.w0
    = (inl (Error "You have an error in your SQL syntax"), w1')
    ∧ @FuncionarioService.loginFuncionario Exemplo.mysql Exemplo.bcrypt Exemplo.jwt
        Exemplo.ana_senha_errada Exemplo.w0
      = (inl (Error "You have an error in your SQL syntax"), w2').
Proof.
  destruct (@login_fails_with_the_syntax_error Exemplo.mysql Exemplo.bcrypt
              Exemplo.jwt
              [("email", JS.Str "ninguem@x.com"); ("senha", JS.Str "secret")]
              [("email", JS.Str "ana@x.com"); ("senha", JS.Str "errada")]
              Exemplo.w0 Exemplo.w0)
    as (e & w1' & w2' & Hrun1 & Hrun2 & -> & _); [discriminate | discriminate |].
  exists w1', w2'. split; [exact Hrun1 | exact Hrun2].
Defined.

(** A witness of C10: the object of the credentials of [ana], on [w0]. *)
Lemma login_look_up_is_refused_witness :
  let o :=
    Model.set_senha (JS.Str "secret")
      (Model.set_email (JS.Str "ana@x.com") Model.new_Funcionario) in
  fst (@FuncionarioDAO.login Exemplo.mysql Exemplo.bcrypt 0%nat
         (with_heap [o] Exemplo.w0))
  = inl (Error "You have an error in your SQL syntax").
Proof.
  intros o.
  destruct (@login_look_up_is_refused Exemplo.mysql Exemplo.bcrypt 0%nat o
              (with_heap [o] Exemplo.w0) eq_refl) as (Hrun & _);
    [discriminate|].
  rewrite Hrun. reflexivity.
Defined.

(** ** Update *)

Section Update.
Context {DB : MysqlDatabase} {B : Bcrypt}.

(** [update] of the gateway, for an object that has a role. *)
Lemma update_run (r : ref) (o : Model.Funcionario) (c : Model.Cargo) (w : World) :
  heap w !! r = Some o →
  Model.cargo o = Some c →
  FuncionarioDAO.update r w
  = if JS.truthy (Model.senha o)
    then
      match Model.senha o with
      | JS.Str senha =>
          let salt := genSalt 12 (salts w) in
          let w1 := logged (Hash senha salt) (with_salts (S (salts w)) w) in
          let params :=
            [Model.nomeFuncionario o; Model.email o; Model.usuario o;
             JS.Str (hashSync senha salt); Model.idCargo c;
             Model.idFuncionario o] in
          if existsb is_undefined params
          then (inl (TypeError "Bind parameters must not contain undefined. To pass SQL NULL specify JS null"), w1)
          else (inl (syntax_error (UPDATE_funcionario_SET_senha params)),
                logged (Execute (UPDATE_funcionario_SET_senha params)) w1)
      | JS.undefined | JS.null =>
          (inl (Error "data and salt arguments required"), w)
      | _ =>
          (inl (Error "data must be a string or Buffer and salt must either be a salt string or a number of rounds"), w)
      end
    else
      let params :=
        [Model.nomeFuncionario o; Model.email o; Model.usuario o;
         Model.idCargo c; Model.idFuncionario o] in
      if existsb is_undefined params
      then (inl (TypeError "Bind parameters must not contain undefined. To pass SQL NULL specify JS null"), w)
      else (inl (syntax_error (UPDATE_funcionario params)),
            logged (Execute (UPDATE_funcionario params)) w).
Proof.
  intros Hr Hc. unfold FuncionarioDAO.update, bind, deref, cargo_idCargo. rewrite Hr.
  destruct (JS.truthy (Model.senha o)) eqn:Htruthy.
  - destruct (Model.senha o) as [| |b|n|senha|items|props]; try reflexivity.
    cbn -[run existsb]. rewrite Hc. cbn -[run existsb]. unfold execute.
    cbn [params_of]. destruct (existsb is_undefined _); [reflexivity|].
    by rewrite run_UPDATE_SET_senha.
  - rewrite Hc. cbn -[run existsb]. unfold execute.
    cbn [params_of]. destruct (existsb is_undefined _); [reflexivity|].
    by rewrite run_UPDATE.
Qed.

(** [update] of the gateway always throws and keeps the tables. *)
Lemma update_always_throws (r : ref) : always_throws (FuncionarioDAO.update r).
Proof.
  unfold FuncionarioDAO.update.
  apply always_throws_bind; [apply keeps_tables_deref|]. intros o.
  destruct (JS.truthy (Model.senha o)).
  - apply always_throws_bind; [apply keeps_tables_bcrypt_hash|]. intros hash.
    apply always_throws_bind; [apply keeps_tables_cargo_idCargo|]. intros idCargo.
    intros w. unfold bind.
    destruct (always_throws_execute
                (UPDATE_funcionario_SET_senha
                   [Model.nomeFuncionario o; Model.email o; Model.usuario o;
                    JS.Str hash; idCargo; Model.idFuncionario o]) eq_refl w)
      as (e & w' & -> & Hsame). eauto.
  - apply always_throws_bind; [apply keeps_tables_cargo_idCargo|]. intros idCargo.
    intros w. unfold bind.
    destruct (always_throws_execute
                (UPDATE_funcionario
                   [Model.nomeFuncionario o; Model.email o; Model.usuario o;
                    idCargo; Model.idFuncionario o]) eq_refl w)
      as (e & w' & -> & Hsame). eauto.
Qed.

Lemma updateFuncionario_always_throws (idFuncionario : Z) (requestBody : JS.value) :
  always_throws (FuncionarioService.updateFuncionario idFuncionario requestBody).
Proof.
  unfold FuncionarioService.updateFuncionario.
  repeat first
    [ apply update_always_throws
    | apply always_throws_bind;
      [ first [ apply keeps_tables_lift | apply keeps_tables_new_Funcionario
              | apply keeps_tables_assign ]
      | intros ? ] ].
Qed.

(** [updateFuncionario] step by step, for a body with an object
    [funcionario] whose [cargo] is an object: the object it hands to the
    gateway. *)
Lemma updateFuncionario_run (idFuncionario : Z) (requestBody : JS.value)
    (props cprops : list (string * JS.value)) (w : World) :
  JS.get requestBody "funcionario" = inr (JS.Obj props) →
  JS.own props "cargo" = JS.Obj cprops →
  FuncionarioService.updateFuncionario idFuncionario requestBody w
  = let o :=
      {| Model.idFuncionario := JS.Num (JS.Int idFuncionario);
         Model.nomeFuncionario := JS.own props "nomeFuncionario";
         Model.email := JS.own props "email";
         Model.usuario := JS.own props "usuario";
         Model.senha := JS.own props "senha";
         Model.cargo :=
           Some {| Model.idCargo := JS.own cprops "idCargo";
                   Model.nomeCargo := JS.undefined |} |} in
    FuncionarioDAO.update (length (heap w)) (with_heap (heap w ++ [o]) w).
Proof.
  intros Hbody Hcargo. destruct w as [fs cs ai h n lg].
  unfold FuncionarioService.updateFuncionario.
  unfold bind, new_Funcionario, assign, lift, ret. rewrite Hbody.
  cbn -[FuncionarioDAO.update]. rewrite Hcargo. cbn -[FuncionarioDAO.update].
  repeat (rewrite ?lookup_new, ?insert_new; cbn -[FuncionarioDAO.update]).
  reflexivity.
Qed.

(** C3. No update reaches the table: the texts of the two statements of
    [update] are refused by the server, so [updateFuncionario] throws
    whatever the request is and leaves every stored row, its password hash
    included, as it was.  Without a password, or with an empty one, the
    statement that is sent is the one without the password column and no
    hash is computed.  With a password the new hash is computed and bound
    to the statement with the password column, and then lost: the stored
    hash is not replaced. *)
Theorem updateFuncionario_never_updates
    (idFuncionario : Z) (requestBody : JS.value) (w : World) :
  (∃ e w',
      FuncionarioService.updateFuncionario idFuncionario requestBody w = (inl e, w')
      ∧ same_tables w w')
  ∧ (∀ props cprops,
       JS.get requestBody "funcionario" = inr (JS.Obj props) →
       JS.own props "cargo" = JS.Obj cprops →
       let nomeFuncionario := JS.own props "nomeFuncionario" in
       let email := JS.own props "email" in
       let usuario := JS.own props "usuario" in
       let idCargo := JS.own cprops "idCargo" in
       existsb is_undefined [nomeFuncionario; email; usuario; idCargo] = false →
       (JS.truthy (JS.own props "senha") = false →
        let params :=
          [nomeFuncionario; email; usuario; idCargo;
           JS.Num (JS.Int idFuncionario)] in
        ∃ w',
          FuncionarioService.updateFuncionario idFuncionario requestBody w
          = (inl (syntax_error (UPDATE_funcionario params)), w')
          ∧ refused (SQL (UPDATE_funcionario params)) = true
          ∧ log w' = (log w ++ [Execute (UPDATE_funcionario params)])%list
          ∧ funcionario w' = funcionario w)
       ∧ (∀ senha,
            JS.own props "senha" = JS.Str senha → senha ≠ "" →
            let salt := genSalt 12 (salts w) in
            let params :=
              [nomeFuncionario; email; usuario; JS.Str (hashSync senha salt);
               idCargo; JS.Num (JS.Int idFuncionario)] in
            ∃ w',
              FuncionarioService.updateFuncionario idFuncionario requestBody w
              = (inl (syntax_error (UPDATE_funcionario_SET_senha params)), w')
              ∧ refused (SQL (UPDATE_funcionario_SET_senha params)) = true
              ∧ log w'
                = (log w ++ [Hash senha salt;
                             Execute (UPDATE_funcionario_SET_senha params)])%list
              ∧ funcionario w' = funcionario w)).
Proof.
  split; [apply updateFuncionario_always_throws|].
  intros props cprops Hbody Hcargo nomeFuncionario email usuario idCargo Hdefined.
  rewrite (updateFuncionario_run _ _ props cprops w Hbody Hcargo). cbv zeta.
  erewrite update_run; [|cbn; apply lookup_new | reflexivity].
  cbn [Model.senha Model.nomeFuncionario Model.email Model.usuario Model.idCargo
       Model.idFuncionario].
  subst nomeFuncionario email usuario idCargo.
  cbn [existsb] in Hdefined.
  apply Bool.orb_false_iff in Hdefined as [Hn Hdefined].
  apply Bool.orb_false_iff in Hdefined as [He Hdefined].
  apply Bool.orb_false_iff in Hdefined as [Hu Hdefined].
  apply Bool.orb_false_iff in Hdefined as [Hi _].
  split.
  - intros Hfalsy. rewrite Hfalsy. cbv zeta. cbn [existsb is_undefined].
    rewrite Hn, He, Hu, Hi. cbn [orb].
    eexists. split; [reflexivity|]. split; [reflexivity|]. done.
  - intros senha Hsenha Hnonempty. rewrite Hsenha. cbn [JS.truthy].
    apply String.eqb_neq in Hnonempty. rewrite Hnonempty. cbn [negb]. cbv zeta.
    cbn [existsb is_undefined]. rewrite Hn, He, Hu, Hi. cbn [orb].
    eexists. split; [reflexivity|]. split; [reflexivity|].
    cbn. rewrite <- app_assoc. done.
Qed.

End Update.

(** C3 on [w0]: a new password for [ana] is hashed, and her stored hash
    stays. *)
Lemma updateFuncionario_never_updates_witness :
  ∃ w',
    @FuncionarioService.updateFuncionario Exemplo.mysql Exemplo.bcrypt 1
      Exemplo.ana_nova_senha Exemplo.w0
    = (inl (Error "You have an error in your SQL syntax"), w')
    ∧ In (Hash "nova" "12$0") (log w')
    ∧ funcionario w' = [Exemplo.ana].
Proof.
  destruct (@updateFuncionario_never_updates Exemplo.mysql Exemplo.bcrypt 1
              Exemplo.ana_nova_senha Exemplo.w0) as [_ Hshape].
  destruct (Hshape _ _ eq_refl eq_refl eq_refl) as [_ Hsenha].
  destruct (Hsenha "nova" eq_refl) as (w' & Hrun & _ & Hlog & Hsame);
    [discriminate|].
  exists w'. split; [exact Hrun|]. split; [|exact Hsame].
  rewrite Hlog. by left.
Defined.

(** ** Listing, and what no call does *)


Section Service.
Context {DB : MysqlDatabase} {N : JS.NumberText} {B : Bcrypt} {J : MeuTokenJWT}.




End Service.


(** ** Finding and deleting *)

Lemma stored_filter (idFuncionario : Z) (w : World) :
  (0 <? Z.of_nat (length (List.filter
                            (λ f, Table.idFuncionario f =? idFuncionario)
                            (funcionario w)))) = true
  ↔ stored idFuncionario w.
Proof.
  unfold stored. rewrite Z.ltb_lt.
  transitivity ((0 <? length (List.filter
                                (λ f, (Table.idFuncionario f =? idFuncionario)%Z)
                                (funcionario w)))%nat = true).
  - rewrite Nat.ltb_lt. lia.
  - rewrite filter_nonempty.
    split; intros (f & Hin & Heq); exists f; split; try done; by apply Z.eqb_eq.
Qed.

Lemma stored_head (idFuncionario : Z) (w : World) :
  stored idFuncionario w →
  ∃ row, head (List.filter (λ f, Table.idFuncionario f =? idFuncionario)
                           (funcionario w)) = Some row.
Proof.
  intros (f & Hin & Hid).
  destruct (head _) as [row|] eqn:Hhead; [eauto|].
  apply head_filter_None with (x := f) in Hhead; [|done].
  apply Z.eqb_neq in Hhead. contradiction.
Qed.

Lemma head_filter_Some {A : Type} (p : A → bool) (l : list A) (x : A) :
  head (List.filter p l) = Some x → In x l ∧ p x = true.
Proof.
  intros Hhead. apply filter_In. destruct (List.filter p l); [discriminate|].
  injection Hhead as ->. by left.
Qed.

Section Finding.
Context {DB : MysqlDatabase} {N : JS.NumberText}.

(** X8. [findById] fails with the 404 error whose message carries the
    identifier, as the language writes it, when no stored employee has it;
    otherwise it answers a stored row of that identifier, whole, the
    password hash included; it writes nothing either way. *)
Theorem findById_answers_a_stored_row (idFuncionario : Z) (w : World) :
  (¬ stored idFuncionario w →
     ∃ w', FuncionarioService.findById idFuncionario w
           = (inl (ErrorResponse 404 "Funcionário não encontrado"
                     ("Não existe funcionário com id "
                      ++ JS.Number_prototype_toString (JS.Int idFuncionario))), w')
           ∧ no_write w w')
  ∧ (stored idFuncionario w →
     ∃ row w', FuncionarioService.findById idFuncionario w = (inr row, w'))
  ∧ (∀ row w',
       FuncionarioService.findById idFuncionario w = (inr row, w') →
       In row (funcionario w) ∧ Table.idFuncionario row = idFuncionario
       ∧ no_write w w').
Proof.
  rewrite findById_run. cbv zeta.
  set (w1 := {| funcionario := funcionario w |}).
  assert (Hnw : no_write w w1).
  { subst w1. repeat split. cbn. rewrite List.filter_app. cbn. apply app_nil_r. }
  split; [|split].
  - intros Hnone. destruct (head _) as [row|] eqn:Hhead.
    + apply head_filter_Some in Hhead as [Hin Hid]. apply Z.eqb_eq in Hid.
      exfalso. apply Hnone. by exists row.
    + eexists. split; [reflexivity | apply Hnw].
  - intros Hsome. destruct (stored_head _ _ Hsome) as [row ->]. eauto.
  - intros row w'. destruct (head _) as [row'|] eqn:Hhead; [|discriminate].
    intros Heq. injection Heq as <- <-.
    apply head_filter_Some in Hhead as [Hin Hid]. apply Z.eqb_eq in Hid.
    split; [done|]. split; [done | apply Hnw].
Qed.

(** X9. After [deleteFuncionario], no stored employee has the identifier:
    [findById] on it fails with the 404 error and a second delete answers
    false; the employees of other identifiers are all still stored. *)
Theorem delete_then_findById (idFuncionario : Z) (w : World) :
  ∃ b w',
    FuncionarioService.deleteFuncionario idFuncionario w = (inr b, w')
    ∧ ¬ stored idFuncionario w'
    ∧ (∃ w'', FuncionarioService.findById idFuncionario w'
              = (inl (ErrorResponse 404 "Funcionário não encontrado"
                        ("Não existe funcionário com id "
                         ++ JS.Number_prototype_toString (JS.Int idFuncionario))),
                 w''))
    ∧ (∃ w'', FuncionarioService.deleteFuncionario idFuncionario w' = (inr false, w''))
    ∧ (∀ f, In f (funcionario w) → Table.idFuncionario f ≠ idFuncionario →
            In f (funcionario w')).
Proof.
  rewrite deleteFuncionario_run. cbv zeta. eexists _, _. split; [reflexivity|].
  set (w' := {| funcionario := List.filter _ (funcionario w) |}).
  assert (Hgone : ¬ stored idFuncionario w').
  { intros (f & Hin & Hid). subst w'. cbn in Hin.
    apply filter_In in Hin as [_ Hne]. apply Bool.negb_true_iff, Z.eqb_neq in Hne.
    contradiction. }
  split; [exact Hgone|]. split; [|split].
  - rewrite findById_run. cbv zeta.
    destruct (head _) as [row|] eqn:Hhead; [|eauto].
    apply head_filter_Some in Hhead as [Hin Hid]. apply Z.eqb_eq in Hid.
    exfalso. apply Hgone. by exists row.
  - rewrite deleteFuncionario_run. cbv zeta.
    rewrite <- stored_filter in Hgone. apply Bool.not_true_is_false in Hgone.
    rewrite Hgone. eauto.
  - intros f Hin Hid. subst w'. cbn. apply filter_In. split; [done|].
    by apply Bool.negb_true_iff, Z.eqb_neq.
Qed.

End Finding.

(** A witness of X8: no employee of [w0] has the identifier 5. *)
Lemma findById_answers_a_stored_row_witness :
  ∃ w', @FuncionarioService.findById Exemplo.mysql Exemplo.numeros 5 Exemplo.w0
        = (inl (ErrorResponse 404 "Funcionário não encontrado"
                  "Não existe funcionário com id 5"), w').
Proof.
  destruct (@findById_answers_a_stored_row Exemplo.mysql Exemplo.numeros 5 Exemplo.w0)
    as [Hnone _].
  destruct Hnone as (w' & Hrun & _).
  - intros (f & [<- | []] & Hid). vm_compute in Hid. discriminate.
  - exists w'. exact Hrun.
Defined.

(** ** The gateway's [create] on an object that lacks a property *)

Section Creating.
Context {DB : MysqlDatabase} {B : Bcrypt}.

(** X15. [create] of the gateway hashes before it sends: for an object that
    has a password and lacks the name, the email, the login name, the role or
    the identifier of the role, it throws without sending the insertion, and
    the object is left with the hash in place of its password; for an object
    without a password it throws and changes nothing. *)
Theorem create_of_an_incomplete_object (r : ref) (o : Model.Funcionario) (w : World) :
  heap w !! r = Some o →
  (Model.senha o = JS.undefined →
   ∃ e, FuncionarioDAO.create r w = (inl e, w))
  ∧ (∀ senha,
       Model.senha o = JS.Str senha →
       Model.nomeFuncionario o = JS.undefined ∨ Model.email o = JS.undefined
       ∨ Model.usuario o = JS.undefined
       ∨ from_option Model.idCargo JS.undefined (Model.cargo o) = JS.undefined →
       ∃ e w',
         FuncionarioDAO.create r w = (inl e, w')
         ∧ no_write w w'
         ∧ heap w' !! r
           = Some (Model.set_senha
                     (JS.Str (hashSync senha (genSalt 12 (salts w)))) o)
         ∧ log w' = (log w ++ [Hash senha (genSalt 12 (salts w))])%list).
Proof.
  intros Ho. destruct w as [fs cs ai h n lg]. cbn in Ho.
  assert (Hlt : (r < length h)%nat) by eapply lookup_lt_Some, Ho.
  unfold FuncionarioDAO.create, cargo_idCargo.
  unfold bind, execute, assign, deref, ret, throw, bcrypt_hash.
  cbn -[run existsb]. rewrite Ho.
  split.
  - intros ->. cbn. eauto.
  - intros senha -> Hmissing. cbn -[run existsb]. rewrite Ho. cbn -[run existsb].
    rewrite list_lookup_insert_eq by done. cbn -[run existsb].
    assert (Hdone : ∀ e,
      ∃ e0 w',
        (inl e : exn + Z,
         {| funcionario := fs; cargo := cs; AUTO_INCREMENT := ai;
            heap := <[r := Model.set_senha (JS.Str (hashSync senha (genSalt 12 n))) o]> h;
            salts := S n; log := lg ++ [Hash senha (genSalt 12 n)] |})
        = (inl e0, w')
        ∧ no_write {| funcionario := fs; cargo := cs; AUTO_INCREMENT := ai;
                      heap := h; salts := n; log := lg |} w'
        ∧ heap w' !! r
          = Some (Model.set_senha (JS.Str (hashSync senha (genSalt 12 n))) o)
        ∧ log w' = (lg ++ [Hash senha (genSalt 12 n)])%list).
    { intros e. eexists _, _. split; [reflexivity|]. split; [|split].
      - repeat split. cbn. rewrite List.filter_app. cbn. apply app_nil_r.
      - cbn. by apply list_lookup_insert_eq.
      - reflexivity. }
    destruct (Model.cargo o) as [c|] eqn:Hc; cbn -[run existsb]; [|apply Hdone].
    cbn in Hmissing.
    assert (Hundef : existsb is_undefined
                       [Model.nomeFuncionario o; Model.email o; Model.usuario o;
                        JS.Str (hashSync senha (genSalt 12 n)); Model.idCargo c]
                     = true).
    { cbn. destruct Hmissing as [-> | [-> | [-> | ->]]]; cbn;
        rewrite ?Bool.orb_true_r; reflexivity. }
    rewrite Hundef. apply Hdone.
Qed.

End Creating.

(** A witness of X15: an object with a password and no login name. *)
Lemma create_of_an_incomplete_object_witness :
  let o := Model.set_senha (JS.Str "segredo") Model.new_Funcionario in
  let w := with_heap [o] Exemplo.w0 in
  ∃ e w',
    @FuncionarioDAO.create Exemplo.mysql Exemplo.bcrypt 0%nat w = (inl e, w')
    ∧ funcionario w' = funcionario Exemplo.w0
    ∧ Model.senha <$> heap w' !! 0%nat = Some (JS.Str "$segredo").
Proof.
  intros o w.
  destruct (@create_of_an_incomplete_object Exemplo.mysql Exemplo.bcrypt 0%nat o w
              eq_refl)
    as [_ Hhashed].
  destruct (Hhashed "segredo" eq_refl) as (e & w' & Hrun & Hnw & Hheap & _);
    [by left|].
  exists e, w'. split; [exact Hrun|]. split; [exact (proj1 Hnw)|].
  apply (f_equal (fmap Model.senha)) in Hheap. exact Hheap.
Defined.

(** ** Further instances *)

(** C6 on [w0]: no stored employee has the identifier 7. *)
Lemma deleteFuncionario_answers_whether_removed_witness :
  ∃ w', @FuncionarioService.deleteFuncionario Exemplo.mysql 7 Exemplo.w0
        = (inr false, w')
        ∧ funcionario w' = funcionario Exemplo.w0.
Proof.
  destruct (@deleteFuncionario_answers_whether_removed Exemplo.mysql 7 Exemplo.w0)
    as (b & w' & Hrun & _ & _ & _ & Hnone).
  destruct Hnone as [-> Hsame].
  - intros f [<- | []]. vm_compute. discriminate.
  - exists w'. split; [exact Hrun | exact Hsame].
Defined.


(** C8 on a [funcionario] without an email. *)
Lemma validateCreateBody_rejects_witness :
  FuncionarioMiddleware.validateCreateBody
    (request_of
       (JS.Obj [("nomeFuncionario", JS.Str "Ana"); ("senha", JS.Str "secret");
                ("usuario", JS.Str "ana1");
                ("cargo", JS.Obj [("idCargo", JS.Num (JS.Int 1))])]))
  = FuncionarioMiddleware.next
      (Some (ErrorResponse 400 "Erro na validação de dados"
               "O campo 'email' é obrigatório!")).
Proof.
  destruct (validateCreateBody_rejects
              (request_of
                 (JS.Obj [("nomeFuncionario", JS.Str "Ana");
                          ("senha", JS.Str "secret"); ("usuario", JS.Str "ana1");
                          ("cargo", JS.Obj [("idCargo", JS.Num (JS.Int 1))])])))
    as (_ & Hmissing & _).
  destruct (Hmissing _ "email" JS.undefined eq_refl eq_refl eq_refl)
    as (antes & primeiro & depois & y & _ & _ & _ & _ & Hfailed).
  - cbn. tauto.
  - reflexivity.
  - by left.
  - pose proof Hfailed as Hcomputed. vm_compute in Hcomputed.
    rewrite Hfailed. symmetry. exact Hcomputed.
Defined.

(** ** Patterns *)

Lemma nullable_Matches (r : JS.regex) : JS.nullable r = true ↔ Matches r [].
Proof.
  induction r as [| |p|r1 IH1 r2 IH2|r1 IH1 r2 IH2|r IH]; cbn.
  - split; [discriminate | inversion 1].
  - split; [constructor | done].
  - split; [discriminate | inversion 1].
  - rewrite Bool.andb_true_iff, IH1, IH2. split.
    + intros [H1 H2]. by apply (Matches_Cat r1 r2 [] []).
    + inversion 1 as [| |? ? s1 s2 H1 H2| | | |]; subst.
      match goal with
      | Heq : (_ ++ _)%list = [] |- _ => apply app_eq_nil in Heq as [-> ->]
      end. done.
  - rewrite Bool.orb_true_iff, IH1, IH2. split.
    + intros [H1 | H2]; [by apply Matches_Alt_l | by apply Matches_Alt_r].
    + inversion 1; subst; auto.
  - split; [constructor | done].
Qed.

Lemma Matches_Star_cons (r : JS.regex) (k : JS.kind) (s : list JS.kind) :
  Matches (JS.Star r) (k :: s) →
  ∃ s1 s2, s = (s1 ++ s2)%list ∧ Matches r (k :: s1) ∧ Matches (JS.Star r) s2.
Proof.
  intros Hm. remember (JS.Star r) as r' eqn:Hr. remember (k :: s) as ks eqn:Hks.
  revert k s Hks.
  induction Hm as [| | | | | |r0 s1 s2 H1 _ H2 IH2]; try discriminate.
  injection Hr as ->. intros k s Hks.
  destruct s1 as [|k1 s1]; cbn in Hks.
  - by apply IH2.
  - injection Hks as <- <-. eauto.
Qed.

Lemma deriv_Matches (r : JS.regex) (k : JS.kind) (s : list JS.kind) :
  Matches (JS.deriv k r) s ↔ Matches r (k :: s).
Proof.
  revert s. induction r as [| |p|r1 IH1 r2 IH2|r1 IH1 r2 IH2|r IH]; intros s; cbn.
  - split; inversion 1.
  - split; inversion 1.
  - destruct (p k) eqn:Hp; split.
    + inversion 1; subst. by constructor.
    + inversion 1; subst. constructor.
    + inversion 1.
    + inversion 1; subst. congruence.
  - assert (Hcat : Matches (JS.Cat (JS.deriv k r1) r2) s
                   ↔ ∃ s1 s2, s = (s1 ++ s2)%list ∧ Matches r1 (k :: s1) ∧ Matches r2 s2).
    { split.
      - inversion 1 as [| |? ? s1 s2 H1 H2| | | |]; subst.
        exists s1, s2. split; [done|]. split; [by apply IH1 | done].
      - intros (s1 & s2 & -> & H1 & H2). constructor; [by apply IH1 | done]. }
    assert (Hgoal : Matches (JS.Cat r1 r2) (k :: s)
                    ↔ (∃ s1 s2, s = (s1 ++ s2)%list ∧ Matches r1 (k :: s1) ∧ Matches r2 s2)
                      ∨ (Matches r1 [] ∧ Matches r2 (k :: s))).
    { split.
      - inversion 1 as [| |? ? s1 s2 H1 H2| | | |]; subst.
        destruct s1 as [|k1 s1]; cbn in *.
        + right. subst. done.
        + match goal with
          | Heq : _ :: _ = _ :: _ |- _ => injection Heq as <- <-
          end. left. eauto.
      - intros [(s1 & s2 & -> & H1 & H2) | [H1 H2]].
        + by apply (Matches_Cat r1 r2 (k :: s1) s2).
        + by apply (Matches_Cat r1 r2 [] (k :: s)). }
    rewrite Hgoal. destruct (JS.nullable r1) eqn:Hnull.
    + apply nullable_Matches in Hnull. split.
      * inversion 1; subst; [left; by apply Hcat | right; split; [done | by apply IH2]].
      * intros [Hl | [_ Hr]]; [apply Matches_Alt_l; by apply Hcat
                              | apply Matches_Alt_r; by apply IH2].
    + rewrite Hcat. split; [auto|]. intros [Hl | [Hn _]]; [done|].
      apply nullable_Matches in Hn. congruence.
  - split.
    + inversion 1; subst; [apply Matches_Alt_l; by apply IH1
                          | apply Matches_Alt_r; by apply IH2].
    + inversion 1; subst; [apply Matches_Alt_l; by apply IH1
                          | apply Matches_Alt_r; by apply IH2].
  - split.
    + inversion 1 as [| |? ? s1 s2 H1 H2| | | |]; subst.
      apply (Matches_Star_app r (k :: s1) s2); [by apply IH | done].
    + intros Hm. apply Matches_Star_cons in Hm as (s1 & s2 & -> & H1 & H2).
      constructor; [by apply IH | done].
Qed.

Lemma regex_match_Matches (r : JS.regex) (s : list JS.kind) :
  JS.regex_match r s = true ↔ Matches r s.
Proof.
  revert r. induction s as [|k s IH]; intros r; cbn.
  - apply nullable_Matches.
  - rewrite IH. apply deriv_Matches.
Qed.

Lemma Matches_Star_Sym (p : JS.kind → bool) (s : list JS.kind) :
  Matches (JS.Star (JS.Sym p)) s ↔ Forall (λ k, p k = true) s.
Proof.
  split.
  - intros Hm. remember (JS.Star (JS.Sym p)) as r eqn:Hr.
    induction Hm as [| | | | | |r0 s1 s2 H1 _ H2 IH2]; try discriminate.
    + constructor.
    + injection Hr as ->. inversion H1; subst. constructor; [done | by apply IH2].
  - induction 1 as [|k s Hk _ IH]; [constructor|].
    apply (Matches_Star_app _ [k] s); [by constructor | done].
Qed.

Lemma Matches_Plus_Sym (p : JS.kind → bool) (s : list JS.kind) :
  Matches (JS.Plus (JS.Sym p)) s ↔ s ≠ [] ∧ Forall (λ k, p k = true) s.
Proof.
  unfold JS.Plus. split.
  - inversion 1 as [| |? ? s1 s2 H1 H2| | | |]; subst.
    inversion H1; subst. apply Matches_Star_Sym in H2. split; [done|].
    by constructor.
  - intros [Hne Hall]. destruct s as [|k s]; [done|].
    apply Forall_cons in Hall as [Hk Hall].
    apply (Matches_Cat _ _ [k] s); [by constructor | by apply Matches_Star_Sym].
Qed.

Lemma notSpaceAt_true (k : JS.kind) :
  FuncionarioMiddleware.notSpaceAt k = true ↔ k ≠ JS.White ∧ k ≠ JS.At.
Proof. destruct k; cbn; split; try done; intros [? ?]; done. Qed.

(** The pattern of the email stands for the lists of the shape of an
    email. *)
Lemma emailRegex_shaped (ks : list JS.kind) :
  JS.regex_match FuncionarioMiddleware.emailRegex ks = true ↔ email_shaped ks.
Proof.
  rewrite regex_match_Matches. unfold FuncionarioMiddleware.emailRegex, email_shaped.
  assert (Hall : ∀ l, Forall (λ k, FuncionarioMiddleware.notSpaceAt k = true) l
                      ↔ Forall (λ k, k ≠ JS.White ∧ k ≠ JS.At) l).
  { intros l. apply Forall_iff. intros k. apply notSpaceAt_true. }
  split.
  - inversion 1 as [| |? ? l s1 Hl H1| | | |]; subst.
    inversion H1 as [| |? ? a s2 Ha H2| | | |]; subst.
    inversion Ha as [|? k Hk| | | | |]; subst. destruct k; try discriminate.
    inversion H2 as [| |? ? d s3 Hd H3| | | |]; subst.
    inversion H3 as [| |? ? b t Hb Ht| | | |]; subst.
    inversion Hb as [|? k Hk'| | | | |]; subst. destruct k; try discriminate.
    apply Matches_Plus_Sym in Hl as [Hl1 Hl2], Hd as [Hd1 Hd2], Ht as [Ht1 Ht2].
    exists l, d, t. repeat split; try done.
    rewrite !Forall_app. rewrite <- !Hall. done.
  - intros (l & d & t & -> & Hl & Hd & Ht & Hforall).
    rewrite !Forall_app, <- !Hall in Hforall. destruct Hforall as (Fl & Fd & Ft).
    apply Matches_Cat; [by apply Matches_Plus_Sym|].
    apply (Matches_Cat _ _ [JS.At]); [by constructor|].
    apply Matches_Cat; [by apply Matches_Plus_Sym|].
    apply (Matches_Cat _ _ [JS.Dot]); [by constructor|].
    by apply Matches_Plus_Sym.
Qed.

(** ** The validation of a login request *)

Lemma dropWhile_nil {A : Type} (p : A → bool) (l : list A) :
  JS.dropWhile p l = [] → Forall (λ x, p x = true) l.
Proof.
  induction l as [|x l IH]; cbn; [constructor|].
  destruct (p x) eqn:Hp; [|discriminate].
  intros Hl. constructor; [done | by apply IH].
Qed.

Lemma dropWhile_head {A : Type} (p : A → bool) (l : list A) (x : A) (m : list A) :
  JS.dropWhile p l = x :: m → p x = false.
Proof.
  induction l as [|y l IH]; cbn; [discriminate|].
  destruct (p y) eqn:Hp; [done|]. intros [= <- <-]. done.
Qed.

Lemma white_head_chunk (s chunk rest : string) :
  JS.white_head s = Some (chunk, rest) → chunk ≠ "".
Proof.
  unfold JS.white_head.
  destruct s as [|c1 [|c2 [|c3 r3]]];
    repeat match goal with
           | |- context [if ?b then _ else _] => destruct b
           end; intros [= <- <-] || discriminate; discriminate.
Qed.

Lemma units_fuel_chunks (fuel : nat) (s : string) :
  Forall (λ u, snd u ≠ "") (JS.units_fuel fuel s).
Proof.
  revert s. induction fuel as [|fuel IH]; intros s; cbn; [constructor|].
  destruct (JS.white_head s) as [[chunk rest]|] eqn:Hhead.
  - constructor; [|apply IH]. cbn. by eapply white_head_chunk.
  - destruct s as [|c rest]; constructor; [|apply IH]. cbn. discriminate.
Qed.

Lemma concat_chunks (l : list string) :
  Forall (λ x, x ≠ "") l → String.concat "" l = "" → l = [].
Proof.
  destruct l as [|x l]; [done|]. intros Hall Hnil.
  apply Forall_cons in Hall as [Hx _]. exfalso. apply Hx.
  cbn in Hnil. destruct l as [|y l]; [done|].
  destruct x; [done | discriminate].
Qed.

(** A string that [trim] empties is made of white space. *)
Lemma trim_empty (s : string) :
  JS.trim s = "" → Forall (λ k, k = JS.White) (kinds s).
Proof.
  unfold JS.trim, kinds. intros Hnil.
  assert (Hwhite : ∀ l : list (JS.kind * string),
             Forall (λ u, JS.is_white u = true) l
             → Forall (λ k, k = JS.White) (List.map fst l)).
  { induction 1 as [|[k c] l Hk _ IH]; cbn; constructor; [|done].
    unfold JS.is_white in Hk. cbn in *. by destruct k. }
  apply Hwhite.
  apply concat_chunks in Hnil.
  - apply map_eq_nil in Hnil.
    apply (f_equal (@List.rev _)) in Hnil. rewrite rev_involutive in Hnil.
    cbn in Hnil. apply dropWhile_nil in Hnil.
    destruct (JS.dropWhile JS.is_white (JS.units s)) as [|u m] eqn:Hdrop.
    + by apply dropWhile_nil.
    + apply dropWhile_head in Hdrop.
      apply Forall_forall with (x := u) in Hnil; [congruence|].
      apply list_elem_of_In, in_rev. rewrite rev_involutive. by left.
  - apply Forall_forall. intros c Hc.
    apply list_elem_of_In, in_map_iff in Hc as (u & <- & Hu).
    apply in_rev in Hu.
    assert (Hsub : ∀ (l : list (JS.kind * string)) x,
               In x (JS.dropWhile JS.is_white l) → In x l).
    { induction l as [|y l IH]; cbn; [done|]. intros x.
      destruct (JS.is_white y); [right; by apply IH | done]. }
    apply Hsub, in_rev, Hsub in Hu.
    pose proof (units_fuel_chunks (String.length s) s) as Hall.
    apply Forall_forall with (x := u) in Hall; [done|].
    by apply list_elem_of_In.
Qed.

(** A string of the shape of an email is not made of white space. *)
Lemma email_shaped_trim (s : string) :
  email_shaped (kinds s) → JS.trim s ≠ "".
Proof.
  intros (l & d & t & Hks & Hl & _ & _ & Hall) Hnil.
  apply trim_empty in Hnil. rewrite Hks in Hnil.
  destruct l as [|k l]; [done|].
  apply Forall_cons in Hnil as [-> _].
  apply Forall_cons in Hall as [[Hk _] _]. done.
Qed.

Section LoginBody.
Context `{JS.NumberText}.

Lemma ToString_of_toString (v : JS.value) (s : string) :
  JS.truthy v = true → JS.toString v = inr s → JS.ToString v = inr s.
Proof.
  destruct v; cbn; try done.
  destruct (JS.hasOwn props "toString"); done.
Qed.

(** Without an object [funcionario] in an object body, the validation
    answers with an error of its own. *)
Lemma validateLoginBody_objects (request : FuncionarioMiddleware.Request) :
  (∃ bprops props,
      FuncionarioMiddleware.body request = JS.Obj bprops
      ∧ JS.own bprops "funcionario" = JS.Obj props)
  ∨ (∃ m, FuncionarioMiddleware.validateLoginBody request
          = FuncionarioMiddleware.next
              (Some (FuncionarioMiddleware.validationError m))).
Proof.
  destruct request as [b ps]. unfold FuncionarioMiddleware.validateLoginBody.
  cbn [FuncionarioMiddleware.body].
  destruct b as [| |b|n|s|items|bprops]; cbn;
    try (right;
         repeat match goal with
                | |- context [if ?c then _ else _] => destruct c
                end; eexists; reflexivity).
  destruct (JS.own bprops "funcionario") as [| |b|n|s|items|props] eqn:Hf;
    cbn;
    try (right;
         repeat match goal with
                | |- context [if ?c then _ else _] => destruct c
                end; eexists; reflexivity).
  left. eauto.
Qed.

(** The outcome is that of the [funcionario] alone. *)
Lemma validateLoginBody_request_of
    (request : FuncionarioMiddleware.Request) (bprops : list (string * JS.value))
    (funcionario : JS.value) :
  FuncionarioMiddleware.body request = JS.Obj bprops →
  JS.own bprops "funcionario" = funcionario →
  FuncionarioMiddleware.validateLoginBody request
  = FuncionarioMiddleware.validateLoginBody (request_of funcionario).
Proof.
  destruct request as [b ps]. cbn [FuncionarioMiddleware.body].
  intros -> <-. unfold FuncionarioMiddleware.validateLoginBody, request_of.
  cbn. done.
Qed.
End LoginBody.

Section LoginValidation.
Context `{JS.NumberText}.

(** The validation of an object [funcionario], by the texts of its email
    and password. *)
Lemma validateLoginBody_fields (props : list (string * JS.value)) :
  FuncionarioMiddleware.validateLoginBody (request_of (JS.Obj props))
  = if negb (JS.truthy (JS.own props "email"))
    then FuncionarioMiddleware.next
           (Some (FuncionarioMiddleware.validationError
                    (FuncionarioMiddleware.obrigatorio "email")))
    else
      match JS.toString (JS.own props "email") with
      | inl e => FuncionarioMiddleware.throws e
      | inr s =>
          if String.eqb (JS.trim s) ""
          then FuncionarioMiddleware.next
                 (Some (FuncionarioMiddleware.validationError
                          (FuncionarioMiddleware.obrigatorio "email")))
          else if negb (JS.truthy (JS.own props "senha"))
          then FuncionarioMiddleware.next
                 (Some (FuncionarioMiddleware.validationError
                          (FuncionarioMiddleware.obrigatorio "senha")))
          else
            match JS.toString (JS.own props "senha") with
            | inl e => FuncionarioMiddleware.throws e
            | inr p =>
                if String.eqb (JS.trim p) ""
                then FuncionarioMiddleware.next
                       (Some (FuncionarioMiddleware.validationError
                                (FuncionarioMiddleware.obrigatorio "senha")))
                else if negb (JS.regex_match FuncionarioMiddleware.emailRegex (kinds s))
                then FuncionarioMiddleware.next
                       (Some (FuncionarioMiddleware.validationError
                                "O campo 'email' não é um e-mail válido"))
                else FuncionarioMiddleware.next None
            end
      end.
Proof.
  unfold FuncionarioMiddleware.validateLoginBody, request_of.
  cbn [FuncionarioMiddleware.body JS.truthy negb JS.get JS.own String.eqb
       Ascii.eqb Bool.eqb FuncionarioMiddleware.for_campos_login].
  destruct (JS.truthy (JS.own props "email")) eqn:Hemail; cbn [negb]; [|done].
  destruct (JS.toString (JS.own props "email")) as [e|s] eqn:Hs; [done|].
  destruct (String.eqb (JS.trim s) ""); [done|].
  destruct (JS.truthy (JS.own props "senha")) eqn:Hsenha; cbn [negb]; [|done].
  destruct (JS.toString (JS.own props "senha")) as [e|p] eqn:Hp; [done|].
  destruct (String.eqb (JS.trim p) ""); [done|].
  unfold JS.test. rewrite (ToString_of_toString _ _ Hemail Hs). done.
Qed.

(** X21.  The validation of a login request lets through exactly the
    requests whose body is an object with an object [funcionario] whose
    email and password are truthy and have a text, the text of the email
    being a part without white space or [@], an [@], and two such parts
    around a dot, none of them empty, and the text of the password not being
    made of white space only.  Every other request is answered by an error
    or by an exception. *)
Theorem validateLoginBody_passes_iff (request : FuncionarioMiddleware.Request) :
  FuncionarioMiddleware.validateLoginBody request = FuncionarioMiddleware.next None
  ↔ ∃ bprops props e p,
      FuncionarioMiddleware.body request = JS.Obj bprops
      ∧ JS.own bprops "funcionario" = JS.Obj props
      ∧ JS.truthy (JS.own props "email") = true
      ∧ JS.toString (JS.own props "email") = inr e
      ∧ email_shaped (kinds e)
      ∧ JS.truthy (JS.own props "senha") = true
      ∧ JS.toString (JS.own props "senha") = inr p
      ∧ JS.trim p ≠ "".
Proof.
  split.
  - intros Hpass.
    destruct (validateLoginBody_objects request)
      as [(bprops & props & Hbody & Hf) | [m Hm]]; [|congruence].
    rewrite (validateLoginBody_request_of _ _ _ Hbody Hf),
      validateLoginBody_fields in Hpass.
    destruct (JS.truthy (JS.own props "email")) eqn:Hemail; [|done].
    destruct (JS.toString (JS.own props "email")) as [e|s] eqn:Hs; [done|].
    destruct (String.eqb (JS.trim s) ""); [done|].
    destruct (JS.truthy (JS.own props "senha")) eqn:Hsenha; [|done].
    destruct (JS.toString (JS.own props "senha")) as [e|p] eqn:Hp; [done|].
    destruct (String.eqb (JS.trim p) "") eqn:Hblank; [done|].
    destruct (JS.regex_match FuncionarioMiddleware.emailRegex (kinds s)) eqn:Hre;
      [|done].
    exists bprops, props, s, p. repeat split; try done.
    + by apply emailRegex_shaped.
    + by apply String.eqb_neq.
  - intros (bprops & props & e & p & Hbody & Hf & Hemail & He & Hshape
            & Hsenha & Hp & Hblank).
    rewrite (validateLoginBody_request_of _ _ _ Hbody Hf),
      validateLoginBody_fields, Hemail, He, Hsenha, Hp.
    apply email_shaped_trim in Hshape as Htrim.
    apply String.eqb_neq in Htrim, Hblank. rewrite Htrim, Hblank.
    apply emailRegex_shaped in Hshape. rewrite Hshape. done.
Qed.

(** X22.  The validation of a login request never looks at the type of the
    email and of the password: a truthy value that has a text, an array or a
    number as well as a string, is validated as that text is. *)
Theorem validateLoginBody_reads_the_text
    (props : list (string * JS.value)) (e p : string) :
  JS.truthy (JS.own props "email") = true →
  JS.toString (JS.own props "email") = inr e →
  JS.truthy (JS.own props "senha") = true →
  JS.toString (JS.own props "senha") = inr p →
  FuncionarioMiddleware.validateLoginBody (request_of (JS.Obj props))
  = FuncionarioMiddleware.validateLoginBody
      (request_of (JS.Obj [("email", JS.Str e); ("senha", JS.Str p)])).
Proof.
  intros Hemail He Hsenha Hp.
  rewrite !validateLoginBody_fields, Hemail, He, Hsenha, Hp.
  cbn [JS.own String.eqb Ascii.eqb Bool.eqb JS.truthy JS.toString negb].
  destruct (String.eqb e "") eqn:Hnil.
  - apply String.eqb_eq in Hnil as ->. done.
  - cbn [negb]. destruct (String.eqb (JS.trim e) ""); [done|].
    destruct (String.eqb p "") eqn:Hpnil; [|done].
    apply String.eqb_eq in Hpnil as ->. done.
Qed.

(** X23.  The validation of a create request never throws: whatever the
    request, it calls [next], with or without an error. *)
Theorem validateCreateBody_never_throws (request : FuncionarioMiddleware.Request) :
  ∃ err, FuncionarioMiddleware.validateCreateBody request
         = FuncionarioMiddleware.next err.
Proof.
  destruct request as [b ps]. unfold FuncionarioMiddleware.validateCreateBody.
  cbn [FuncionarioMiddleware.body].
  assert (Hloop : ∀ f campos o,
             JS.truthy f = true →
             FuncionarioMiddleware.for_campos f campos = Some o →
             ∃ err, o = FuncionarioMiddleware.next err).
  { intros f campos o Hf. induction campos as [|campo rest IH]; cbn; [done|].
    destruct (JS.get f campo) as [e|v] eqn:Hget.
    { destruct f; done. }
    destruct (JS.blank v); [|done]. intros [= <-]. eauto. }
  destruct (JS.truthy b) eqn:Hb; cbn [negb]; [|eauto].
  destruct (JS.get b "funcionario") as [e|f] eqn:Hget.
  { destruct b; done. }
  destruct (JS.truthy f) eqn:Hf; cbn [negb]; [|eauto].
  destruct (FuncionarioMiddleware.for_campos f FuncionarioMiddleware.camposObrigatorios)
    as [o|] eqn:Hfor.
  { by apply (Hloop f FuncionarioMiddleware.camposObrigatorios). }
  destruct (JS.get f "cargo") as [e|cargo] eqn:Hcargo.
  { destruct f; done. }
  destruct cargo; cbn;
    repeat match goal with
           | |- context [if ?c then _ else _] => destruct c
           end; eauto.
Qed.

(** X24.  The validation of a login request throws exactly when a truthy
    email, or a truthy password after an email that passed, has no text:
    the exception is the one of [toString]. *)
Theorem validateLoginBody_throws_iff
    (request : FuncionarioMiddleware.Request) (e : exn) :
  FuncionarioMiddleware.validateLoginBody request = FuncionarioMiddleware.throws e
  ↔ ∃ bprops props,
      FuncionarioMiddleware.body request = JS.Obj bprops
      ∧ JS.own bprops "funcionario" = JS.Obj props
      ∧ JS.truthy (JS.own props "email") = true
      ∧ (JS.toString (JS.own props "email") = inl e
         ∨ ∃ s, JS.toString (JS.own props "email") = inr s
                ∧ JS.trim s ≠ ""
                ∧ JS.truthy (JS.own props "senha") = true
                ∧ JS.toString (JS.own props "senha") = inl e).
Proof.
  split.
  - intros Hthrow.
    destruct (validateLoginBody_objects request)
      as [(bprops & props & Hbody & Hf) | [m Hm]]; [|congruence].
    rewrite (validateLoginBody_request_of _ _ _ Hbody Hf),
      validateLoginBody_fields in Hthrow.
    exists bprops, props. do 2 (split; [done|]).
    destruct (JS.truthy (JS.own props "email")) eqn:Hemail; [|done].
    cbn [negb] in Hthrow. split; [done|].
    destruct (JS.toString (JS.own props "email")) as [e'|s] eqn:Hs.
    { left. congruence. }
    right. exists s. split; [done|].
    destruct (String.eqb (JS.trim s) "") eqn:Hblank; [done|].
    split; [by apply String.eqb_neq|].
    destruct (JS.truthy (JS.own props "senha")) eqn:Hsenha; [|done].
    cbn [negb] in Hthrow. split; [done|].
    destruct (JS.toString (JS.own props "senha")) as [e'|p] eqn:Hp; [congruence|].
    destruct (String.eqb (JS.trim p) ""); [done|].
    destruct (negb (JS.regex_match FuncionarioMiddleware.emailRegex (kinds s)));
      done.
  - intros (bprops & props & Hbody & Hf & Hemail & Hcase).
    rewrite (validateLoginBody_request_of _ _ _ Hbody Hf),
      validateLoginBody_fields, Hemail.
    destruct Hcase as [He | (s & Hs & Hblank & Hsenha & Hp)].
    + rewrite He. done.
    + apply String.eqb_neq in Hblank. rewrite Hs, Hblank, Hsenha, Hp. done.
Qed.

(** X25.  An email that is an object with a property [toString] of its own
    makes the validation of a login request throw a [TypeError] in place of
    answering with an error: in a parsed body such a property is never a
    function, and the message of the error names the call as the source
    writes it. *)
Theorem validateLoginBody_throws_on_toString
    (props q : list (string * JS.value)) :
  JS.own props "email" = JS.Obj q →
  JS.hasOwn q "toString" = true →
  FuncionarioMiddleware.validateLoginBody (request_of (JS.Obj props))
  = FuncionarioMiddleware.throws (TypeError "funcionario[campo].toString is not a function").
Proof.
  intros Hemail Hown. rewrite validateLoginBody_fields, Hemail.
  cbn [JS.truthy negb JS.toString]. rewrite Hown. done.
Qed.

End LoginValidation.

(** X26.  The validation of a create request looks at the email and at the
    password only to see that they are not empty: with any two other
    non-empty strings in their place the outcome is the same.  Neither the
    shape of the email nor a password of white space is looked at. *)
Theorem validateCreateBody_ignores_the_text
    (rest : list (string * JS.value)) (e p e' p' : string) :
  e ≠ "" → p ≠ "" → e' ≠ "" → p' ≠ "" →
  FuncionarioMiddleware.validateCreateBody
    (request_of (JS.Obj (("email", JS.Str e) :: ("senha", JS.Str p) :: rest)))
  = FuncionarioMiddleware.validateCreateBody
      (request_of (JS.Obj (("email", JS.Str e') :: ("senha", JS.Str p') :: rest))).
Proof.
  intros He Hp He' Hp'.
  apply String.eqb_neq in He, Hp, He', Hp'.
  unfold FuncionarioMiddleware.validateCreateBody, request_of,
    FuncionarioMiddleware.camposObrigatorios.
  cbn [FuncionarioMiddleware.body JS.truthy negb JS.get JS.own String.eqb
       Ascii.eqb Bool.eqb FuncionarioMiddleware.for_campos JS.blank].
  rewrite He, Hp, He', Hp'. done.
Qed.

Lemma validateLoginBody_reads_the_text_witness :
  FuncionarioMiddleware.validateLoginBody (H := Exemplo.numeros)
    (request_of (JS.Obj [("email", JS.Arr [JS.Str "ana@x.com"]);
                         ("senha", JS.Num (JS.Int 123))]))
  = FuncionarioMiddleware.validateLoginBody (H := Exemplo.numeros)
      (request_of (JS.Obj [("email", JS.Str "ana@x.com"); ("senha", JS.Str "123")])).
Proof.
  apply (validateLoginBody_reads_the_text (H := Exemplo.numeros)
           [("email", JS.Arr [JS.Str "ana@x.com"]); ("senha", JS.Num (JS.Int 123))]
           "ana@x.com" "123"); reflexivity.
Defined.

Lemma validateLoginBody_throws_on_toString_witness :
  FuncionarioMiddleware.validateLoginBody (H := Exemplo.numeros)
    (request_of (JS.Obj [("email", JS.Obj [("toString", JS.Str "ana@x.com")]);
                         ("senha", JS.Str "123")]))
  = FuncionarioMiddleware.throws (TypeError "funcionario[campo].toString is not a function").
Proof.
  apply (validateLoginBody_throws_on_toString (H := Exemplo.numeros)
           [("email", JS.Obj [("toString", JS.Str "ana@x.com")]);
            ("senha", JS.Str "123")]
           [("toString", JS.Str "ana@x.com")]); reflexivity.
Defined.

Lemma validateCreateBody_ignores_the_text_witness :
  FuncionarioMiddleware.validateCreateBody
    (request_of (JS.Obj [("email", JS.Str "sem arroba"); ("senha", JS.Str " ");
                         ("nomeFuncionario", JS.Str "Ana"); ("usuario", JS.Str "ana");
                         ("cargo", JS.Obj [("idCargo", JS.Num (JS.Int 1))])]))
  = FuncionarioMiddleware.validateCreateBody
      (request_of (JS.Obj [("email", JS.Str "ana@x.com"); ("senha", JS.Str "123");
                           ("nomeFuncionario", JS.Str "Ana"); ("usuario", JS.Str "ana");
                           ("cargo", JS.Obj [("idCargo", JS.Num (JS.Int 1))])])).
Proof.
  apply (validateCreateBody_ignores_the_text
           [("nomeFuncionario", JS.Str "Ana"); ("usuario", JS.Str "ana");
            ("cargo", JS.Obj [("idCargo", JS.Num (JS.Int 1))])]
           "sem arroba" " " "ana@x.com" "123"); discriminate.
Defined.

(** ** The scenario of the spec *)

(** The scenario of the spec (8) stops at its first step: with the role 1
    stored and no employee, creating [ana] throws the error of the syntax
    and stores nothing, and the login that should follow throws it too. *)
Example create_then_login :
  ∃ w,
    @FuncionarioService.createFuncionario Exemplo.mysql Exemplo.numeros
      Exemplo.bcrypt Exemplo.ana_json Exemplo.vazio
    = (inl (Error "You have an error in your SQL syntax"), w)
    ∧ funcionario w = []
    ∧ fst (@FuncionarioService.loginFuncionario Exemplo.mysql Exemplo.bcrypt
             Exemplo.jwt Exemplo.ana_login w)
      = inl (Error "You have an error in your SQL syntax").
Proof.
  eexists. split; [vm_compute; reflexivity|].
  split; vm_compute; reflexivity.
Qed.
